(** * Canary feature flags: the hash assigner and the feature evaluator

  A shallow embedding of [src/lib/utils/hash.ts] (hashString, isInRollout,
  assignVariant) and of the two remote queries of
  [src/lib/features.remote.ts] (checkFeature, checkFeatures), followed by
  the properties the specification states about them.

  JavaScript numbers are IEEE 754 binary64 values.  They are modelled by
  [spec_float] with the rounding operations of the standard library's
  [SpecFloat] at precision 53, so every quotient, product and comparison
  below is the one the program computes, rounding included. *)

From Stdlib Require Import ZArith String Ascii List Lia Bool.
From Stdlib Require Import Floats.SpecFloat.
From stdpp Require Import gmap strings.

Open Scope string_scope.
Open Scope Z_scope.

(** ** JavaScript values used by the library *)

Module JS.

(** binary64: 53 bits of mantissa, infinities at exponent 1024. *)
Definition prec : Z := 53.
Definition emax : Z := 1024.

Definition number : Type := spec_float.

(** The number denoted by an integer literal or an integer-valued
    expression (exact below 2^53, rounded to nearest even above). *)
Definition num_of_Z (z : Z) : number := binary_normalize prec emax z 0 false.

Definition num_mul (x y : number) : number := SFmul prec emax x y.
Definition num_div (x y : number) : number := SFdiv prec emax x y.

(** [x <= y], [x < y] and [x > y]; all three are false on NaN. *)
Definition num_le (x y : number) : bool := SFleb x y.
Definition num_lt (x y : number) : bool := SFltb x y.
Definition num_gt (x y : number) : bool := SFltb y x.

Definition is_nan (x : number) : bool :=
  match x with S754_nan => true | _ => false end.

(** [Math.floor] followed by the conversion of the result to an array
    index: [None] stands for NaN and the infinities, which index nothing. *)
Definition Math_floor (x : number) : option Z :=
  match x with
  | S754_zero _ => Some 0
  | S754_finite s m e => Some (Z.shiftl (cond_Zopp s (Zpos m)) e)
  | S754_infinity _ | S754_nan => None
  end.

(** [ToInt32]: reduction modulo 2^32 into [-2^31, 2^31). *)
Definition toInt32 (z : Z) : Z := (z + 2 ^ 31) mod 2 ^ 32 - 2 ^ 31.

(** [a << n] and [a & b] on numbers: both operands go through ToInt32
    and the result is a 32-bit signed integer. *)
Definition shl32 (a n : Z) : Z := toInt32 (Z.shiftl (toInt32 a) n).
Definition and32 (a b : Z) : Z := toInt32 (Z.land (toInt32 a) (toInt32 b)).

(** The names of the members of [Object.prototype].  A plain object (an
    object literal, or an object that [JSON.parse] builds) inherits them: a
    read [obj[key]] with one of these names finds the inherited member when
    the object has no own property of that name. *)
Definition objectPrototypeNames : list string :=
  ["constructor"; "hasOwnProperty"; "isPrototypeOf"; "propertyIsEnumerable";
   "toLocaleString"; "toString"; "valueOf"; "__proto__";
   "__defineGetter__"; "__defineSetter__"; "__lookupGetter__"; "__lookupSetter__"].

Definition onPrototype (key : string) : bool :=
  existsb (String.eqb key) objectPrototypeNames.

(** What a string-valued expression of the library can evaluate to;
    [JSinherited name] is the member [name] of [Object.prototype], a function
    or, for [__proto__], the prototype object itself. *)
Inductive jsval : Type :=
| JSnull
| JSundefined
| JSstr (s : string)
| JSinherited (name : string).

(** Truthiness: [null], [undefined] and the empty string are falsy;
    functions and objects are truthy. *)
Definition truthy (v : jsval) : bool :=
  match v with
  | JSstr s => negb (String.eqb s "")
  | JSinherited _ => true
  | JSnull | JSundefined => false
  end.

(** [a || b] *)
Definition js_or (a b : jsval) : jsval := if truthy a then a else b.

(** An optional property or a missing map entry reads as [undefined]. *)
Definition of_option (o : option string) : jsval :=
  match o with Some s => JSstr s | None => JSundefined end.

(** [obj[key]] on a plain object with string values: the own property, else
    the inherited member of that name, else [undefined]. *)
Definition readProp (obj : gmap string string) (key : string) : jsval :=
  match obj !! key with
  | Some s => JSstr s
  | None => if onPrototype key then JSinherited key else JSundefined
  end.

(** [obj[key] = value] on a plain object, for a string [value]: an own
    property is created or overwritten, except that the name [__proto__],
    when it is not an own property, reaches the setter of [Object.prototype],
    which ignores a value that is not an object. *)
Definition writeProp (obj : gmap string string) (key value : string)
  : gmap string string :=
  match obj !! key with
  | Some _ => <[key := value]> obj
  | None => if String.eqb key "__proto__" then obj else <[key := value]> obj
  end.

(** [arr[i]] for an index produced by [Math_floor]. *)
Definition array_get (arr : list string) (i : option Z) : jsval :=
  match i with
  | Some z => if 0 <=? z then of_option (nth_error arr (Z.to_nat z)) else JSundefined
  | None => JSundefined
  end.

(** [str.charCodeAt(i)] for [i = 0 .. str.length - 1]; a character of the
    embedding is one code unit. *)
Definition charCodes (str : string) : list Z :=
  map (fun c => Z.of_N (N_of_ascii c)) (list_ascii_of_string str).

End JS.

(** ** src/lib/utils/hash.ts *)

Module Hash.
Import JS.

(** One turn of the loop of [hashString]:
    [hash = (hash << 5) - hash + char; hash = hash & hash]. *)
Definition hashStep (hash char : Z) : Z :=
  let hash := shl32 hash 5 - hash + char in
  and32 hash hash.

(** The 32-bit integer [hash] holds when the loop ends. *)
Definition hashInt (str : string) : Z :=
  fold_left hashStep (charCodes str) 0.

(** [return Math.abs(hash) / 2147483647] *)
Definition hashString (str : string) : number :=
  num_div (num_of_Z (Z.abs (hashInt str))) (num_of_Z 2147483647).

Definition rolloutKey (userId featureKey : string) : string :=
  userId +:+ ":" +:+ featureKey +:+ ":rollout".

Definition variantKey (userId featureKey : string) : string :=
  userId +:+ ":" +:+ featureKey +:+ ":variant".

Definition isInRollout (userId featureKey : string) (rollout : number) : bool :=
  let hash := hashString (rolloutKey userId featureKey) in
  num_le (num_mul hash (num_of_Z 100)) rollout.

(** The index [Math.floor(variantHash * variants.length)]. *)
Definition variantIndex (userId featureKey : string) (variants : list string)
  : option Z :=
  let variantHash := hashString (variantKey userId featureKey) in
  Math_floor (num_mul variantHash (num_of_Z (Z.of_nat (length variants)))).

Definition assignVariant (userId featureKey : string) (variants : list string)
    (rollout : number) : jsval :=
  match variants with
  | [] => JSnull
  | _ :: _ =>
    let rolloutHash := hashString (rolloutKey userId featureKey) in
    if num_gt (num_mul rolloutHash (num_of_Z 100)) rollout then JSnull
    else array_get variants (variantIndex userId featureKey variants)
  end.

End Hash.

(** ** src/lib/types/index.ts and src/lib/features.remote.ts *)

Module Remote.
Import JS Hash.

Record FeatureDefinition : Type := {
  def_enabled : bool;
  def_rollout : option number;
  def_variants : option (list string);
  def_defaultVariant : option string;
  def_userGroups : option (list string)
}.

Record FeatureFlagsConfig : Type := {
  features : gmap string FeatureDefinition
}.

Record UserContext : Type := {
  userId : string;
  groups : list string;
  ctx_variants : gmap string string
}.

Record FeatureCheckResult : Type := {
  enabled : bool;
  variant : jsval;
  reason : string
}.

(** A member of [Object.prototype] read as a feature definition: every
    field of it reads [undefined], so [!featureDef.enabled] holds, and no
    other field is read after that test. *)
Definition inheritedMember : FeatureDefinition :=
  {| def_enabled := false; def_rollout := None; def_variants := None;
     def_defaultVariant := None; def_userGroups := None |}.

(** [config.features[featureKey]]: the own property of the [features]
    object, else the inherited member when [featureKey] is a name of
    [Object.prototype], else [undefined]. *)
Definition getFeatureConfig (config : FeatureFlagsConfig) (featureKey : string)
  : option FeatureDefinition :=
  match features config !! featureKey with
  | Some featureDef => Some featureDef
  | None => if onPrototype featureKey then Some inheritedMember else None
  end.

(** [groups.includes(group)] *)
Definition includes (groups : list string) (group : string) : bool :=
  existsb (String.eqb group) groups.

(** [featureDef.userGroups.some((group) => userContext.groups.includes(group))] *)
Definition hasRequiredGroup (userGroups : list string) (userContext : UserContext)
  : bool :=
  existsb (fun group => includes (groups userContext) group) userGroups.

(** The guard [featureDef.userGroups && featureDef.userGroups.length > 0]
    together with [!hasRequiredGroup]: true when the user is turned away. *)
Definition lacksRequiredGroup (featureDef : FeatureDefinition)
    (userContext : UserContext) : bool :=
  match def_userGroups featureDef with
  | Some ((_ :: _) as userGroups) => negb (hasRequiredGroup userGroups userContext)
  | Some [] | None => false
  end.

(** [featureDef.rollout ?? 100] *)
Definition rolloutOf (featureDef : FeatureDefinition) : number :=
  match def_rollout featureDef with
  | Some r => r
  | None => num_of_Z 100
  end.

(** The variant branch of [checkFeature], entered with a non-empty
    [variants] array. *)
Definition resolveVariant (featureDef : FeatureDefinition)
    (userContext : UserContext) (featureKey : string)
    (variants : list string) (rollout : number) : jsval :=
  let variant := readProp (ctx_variants userContext) featureKey in
  if negb (truthy variant) then
    let calculatedVariant :=
      assignVariant (userId userContext) featureKey variants rollout in
    js_or (js_or calculatedVariant (of_option (def_defaultVariant featureDef)))
          (of_option (nth_error variants 0))
  else variant.

(** The query [checkFeature].  The request's user context and the config
    snapshot, which the source reads through [getUserContext] and
    [getFeatureConfig], are parameters. *)
Definition checkFeature (config : FeatureFlagsConfig) (userContext : UserContext)
    (featureKey : string) : FeatureCheckResult :=
  match getFeatureConfig config featureKey with
  | None =>
      {| enabled := false; variant := JSundefined; reason := "Feature not found" |}
  | Some featureDef =>
    if negb (def_enabled featureDef) then
      {| enabled := false; variant := JSundefined;
         reason := "Feature is globally disabled" |}
    else if lacksRequiredGroup featureDef userContext then
      {| enabled := false; variant := JSundefined;
         reason := "User not in required group" |}
    else
      let rollout := rolloutOf featureDef in
      if negb (isInRollout (userId userContext) featureKey rollout) then
        {| enabled := false; variant := JSundefined;
           reason := "User not in rollout percentage" |}
      else
        match def_variants featureDef with
        | Some ((_ :: _) as variants) =>
            {| enabled := true;
               variant := resolveVariant featureDef userContext featureKey
                            variants rollout;
               reason := "Feature enabled with variant" |}
        | Some [] | None =>
            {| enabled := true; variant := JSundefined; reason := "Feature enabled" |}
        end
  end.

(** The body of the loop of [checkFeatures]: the entry stored under [key]. *)
Definition checkFeaturesEntry (config : FeatureFlagsConfig)
    (userContext : UserContext) (key : string) : FeatureCheckResult :=
  match getFeatureConfig config key with
  | None =>
      {| enabled := false; variant := JSundefined; reason := "Feature not found" |}
  | Some featureDef =>
    if negb (def_enabled featureDef) then
      {| enabled := false; variant := JSundefined;
         reason := "Feature is globally disabled" |}
    else if lacksRequiredGroup featureDef userContext then
      {| enabled := false; variant := JSundefined;
         reason := "User not in required group" |}
    else
      let rollout := rolloutOf featureDef in
      if negb (isInRollout (userId userContext) key rollout) then
        {| enabled := false; variant := JSundefined;
           reason := "User not in rollout percentage" |}
      else
        {| enabled := true;
           variant := readProp (ctx_variants userContext) key;
           reason := "Feature enabled" |}
  end.

(** [results[key] = entry] on the object [results], which starts as [{}]:
    the own properties and the prototype after the assignment ([None] is
    [Object.prototype]).  The name [__proto__] reaches the setter of
    [Object.prototype], which makes [entry] the prototype of [results] and
    creates no property. *)
Definition assignResult (results : gmap string FeatureCheckResult
                                   * option FeatureCheckResult)
    (key : string) (entry : FeatureCheckResult)
  : gmap string FeatureCheckResult * option FeatureCheckResult :=
  if String.eqb key "__proto__" then (results.1, Some entry)
  else (<[key := entry]> results.1, results.2).

(** The object the loop of [checkFeatures] builds. *)
Definition checkFeaturesObject (config : FeatureFlagsConfig)
    (userContext : UserContext) (featureKeys : list string)
  : gmap string FeatureCheckResult * option FeatureCheckResult :=
  fold_left
    (fun results key =>
       assignResult results key (checkFeaturesEntry config userContext key))
    featureKeys (∅, None).

(** The query [checkFeatures]: the own properties of the object it returns,
    one per key that was assigned as a property. *)
Definition checkFeatures (config : FeatureFlagsConfig) (userContext : UserContext)
    (featureKeys : list string) : gmap string FeatureCheckResult :=
  (checkFeaturesObject config userContext featureKeys).1.

End Remote.

Import JS Hash Remote.

(** ** src/lib/utils/userContext.ts

    The three cookies of a request.  The user id cookie holds a plain
    string.  The groups and variants cookies hold JSON text, which
    [getUserContext] hands to [JSON.parse]; the jar records what that call
    makes of the text: there is no cookie (or its text is empty), the text is
    not JSON and [JSON.parse] throws, or the text denotes a value of the
    declared type.  JSON text that denotes a value of another type, which
    [getUserContext] passes on unchecked, is outside the model.
    [setUserContext] writes [JSON.stringify] of a value, which reads back as
    that value.  The cookie names are the three distinct default names. *)

Module UserCtx.

Inductive jsonCookie (A : Type) : Type :=
| NoCookie
| BadJson
| Json (a : A).
Arguments NoCookie {A}.
Arguments BadJson {A}.
Arguments Json {A} a.

Record Cookies : Type := {
  canary_user_id : option string;
  canary_groups : jsonCookie (list string);
  canary_variants : jsonCookie (gmap string string)
}.

(** [str ? JSON.parse(str) : empty]; [None] when [JSON.parse] throws. *)
Definition parseOr {A : Type} (cookie : jsonCookie A) (empty : A) : option A :=
  match cookie with
  | NoCookie => Some empty
  | BadJson => None
  | Json a => Some a
  end.

(** [cookies.get(userIdCookie)] as a condition: an empty id is falsy. *)
Definition storedUserId (cookies : Cookies) : option string :=
  match canary_user_id cookies with
  | Some s => if String.eqb s "" then None else Some s
  | None => None
  end.

(** [getUserContext]; [generated] is the value [generateUserId()] returns
    when it is called; [None] when a cookie does not parse. *)
Definition getUserContext (cookies : Cookies) (generated : string)
  : option UserContext :=
  let userId := match storedUserId cookies with Some s => s | None => generated end in
  match parseOr (canary_groups cookies) [] with
  | None => None
  | Some groups =>
    match parseOr (canary_variants cookies) ∅ with
    | None => None
    | Some variants =>
        Some {| userId := userId; groups := groups; ctx_variants := variants |}
    end
  end.

(** [ensureUserId]: the jar after the call and the id returned. *)
Definition ensureUserId (cookies : Cookies) (generated : string) : Cookies * string :=
  match storedUserId cookies with
  | Some userId => (cookies, userId)
  | None =>
      ({| canary_user_id := Some generated;
          canary_groups := canary_groups cookies;
          canary_variants := canary_variants cookies |}, generated)
  end.

(** [setUserContext] sets all three cookies. *)
Definition setUserContext (cookies : Cookies) (context : UserContext) : Cookies :=
  {| canary_user_id := Some (userId context);
     canary_groups := Json (groups context);
     canary_variants := Json (ctx_variants context) |}.

(** [addUserToGroup]: the jar after the call and the context returned, or
    [None] when [getUserContext] throws. *)
Definition addUserToGroup (cookies : Cookies) (generated group : string)
  : Cookies * option UserContext :=
  match getUserContext cookies generated with
  | None => (cookies, None)
  | Some context =>
    if negb (includes (groups context) group) then
      let context :=
        {| userId := userId context; groups := groups context ++ [group];
           ctx_variants := ctx_variants context |} in
      (setUserContext cookies context, Some context)
    else (cookies, Some context)
  end.

Definition removeUserFromGroup (cookies : Cookies) (generated group : string)
  : Cookies * option UserContext :=
  match getUserContext cookies generated with
  | None => (cookies, None)
  | Some context =>
    let context :=
      {| userId := userId context;
         groups := filter (fun g => g <> group) (groups context);
         ctx_variants := ctx_variants context |} in
    (setUserContext cookies context, Some context)
  end.

Definition isUserInGroup (context : UserContext) (group : string) : bool :=
  includes (groups context) group.

(** [assignVariant(event, featureKey, variant)] of userContext.ts. *)
Definition assignVariant (cookies : Cookies) (generated featureKey variant : string)
  : Cookies * option UserContext :=
  match getUserContext cookies generated with
  | None => (cookies, None)
  | Some context =>
    let context :=
      {| userId := userId context; groups := groups context;
         ctx_variants := writeProp (ctx_variants context) featureKey variant |} in
    (setUserContext cookies context, Some context)
  end.

(** [context.variants[featureKey]] *)
Definition getAssignedVariant (context : UserContext) (featureKey : string)
  : jsval :=
  readProp (ctx_variants context) featureKey.

End UserCtx.

(** ** src/lib/utils/configLoader.ts *)

Module Loader.

(** A route definition is an object with string values: the fields
    [feature], [requiresGroup], [enabled], [disabled] and one field per
    group. *)
Definition RouteDefinition : Type := gmap string string.

(** [FeatureFlagsConfig] with its optional [routes] field. *)
Record SiteConfig : Type := {
  flags : FeatureFlagsConfig;
  routes : option (gmap string RouteDefinition)
}.

(** A property used as a condition and then as a string: present and not
    empty. *)
Definition prop (routeDef : RouteDefinition) (key : string) : option string :=
  match routeDef !! key with
  | Some s => if String.eqb s "" then None else Some s
  | None => None
  end.

(** The rollout test of [validateConfig]: false when it throws. *)
Definition rolloutAccepted (featureDef : FeatureDefinition) : bool :=
  match def_rollout featureDef with
  | Some rollout =>
      negb (num_lt rollout (num_of_Z 0) || num_gt rollout (num_of_Z 100))
  | None => true
  end.

(** The two route tests of [validateConfig]: false when one throws.  The
    test [!config.features[routeDef.feature]] reads the [features] object
    as [getFeatureConfig] does. *)
Definition routeAccepted (config : SiteConfig) (path : string)
    (routeDef : RouteDefinition) : bool :=
  String.prefix "/" path &&
  match prop routeDef "feature" with
  | Some feature =>
      match getFeatureConfig (flags config) feature with
      | Some _ => true
      | None => false
      end
  | None => true
  end.

(** [validateConfig] on a config whose fields have the declared types: the
    config itself, or [None] when an error is thrown.  The [typeof] and
    [Array.isArray] tests of the source throw on no such config; a config
    with a field of another type is outside the model. *)
Definition validateConfig (config : SiteConfig) : option SiteConfig :=
  if forallb (fun entry => rolloutAccepted entry.2)
             (map_to_list (features (flags config)))
     && match routes config with
        | Some rs => forallb (fun entry => routeAccepted config entry.1 entry.2)
                             (map_to_list rs)
        | None => true
        end
  then Some config else None.

(** A config provider is a callback of the application; the model gives it
    the time of the call.  [None]: it throws or its promise rejects. *)
Definition ConfigProvider : Type := Z -> option SiteConfig.

(** The module state of the loader. *)
Record LoaderState : Type := {
  cachedConfig : option SiteConfig;
  configLoadedAt : Z;
  configProvider : option ConfigProvider;
  cacheTTL : number
}.

(** A number used as a condition: zero and NaN are falsy. *)
Definition num_truthy (x : number) : bool :=
  match x with
  | S754_zero _ | S754_nan => false
  | _ => true
  end.

(** The state the module starts in. *)
Definition initialState : LoaderState :=
  {| cachedConfig := None; configLoadedAt := 0; configProvider := None;
     cacheTTL := num_of_Z 300 |}.

(** [initConfigLoader(options)] with the two options it reads. *)
Definition initConfigLoader (provider : option ConfigProvider) (ttl : option number)
  : LoaderState :=
  {| cachedConfig := None; configLoadedAt := 0; configProvider := provider;
     cacheTTL := match ttl with
                 | Some t => if num_truthy t then t else num_of_Z 300
                 | None => num_of_Z 300
                 end |}.

Definition invalidateCache (st : LoaderState) : LoaderState :=
  {| cachedConfig := None; configLoadedAt := 0;
     configProvider := configProvider st; cacheTTL := cacheTTL st |}.

(** [cachedConfig = config; configLoadedAt = now] *)
Definition store (st : LoaderState) (config : SiteConfig) (now : Z) : LoaderState :=
  {| cachedConfig := Some config; configLoadedAt := now;
     configProvider := configProvider st; cacheTTL := cacheTTL st |}.

(** [(now - configLoadedAt) / 1000 < cacheTTL] *)
Definition fresh (st : LoaderState) (now : Z) : bool :=
  num_lt (num_div (num_of_Z (now - configLoadedAt st)) (num_of_Z 1000)) (cacheTTL st).

(** The body of the [try] block: the validated config, or [None] when the
    provider or [validateConfig] throws. *)
Definition fetchConfig (defaultConfig : SiteConfig) (st : LoaderState) (now : Z)
  : option SiteConfig :=
  match configProvider st with
  | Some provider =>
      match provider now with
      | Some config => validateConfig config
      | None => None
      end
  | None => validateConfig defaultConfig
  end.

(** [loadConfig] at time [now = Date.now()]: the state after the call and
    the config returned, or [None] when the call throws.  [defaultConfig] is
    the content of [features.config.json]. *)
Definition loadConfig (defaultConfig : SiteConfig) (st : LoaderState) (now : Z)
  : LoaderState * option SiteConfig :=
  match cachedConfig st with
  | Some cached =>
      if fresh st now then (st, Some cached)
      else
        match fetchConfig defaultConfig st now with
        | Some config => (store st config now, Some config)
        | None => (st, Some cached)
        end
  | None =>
      match fetchConfig defaultConfig st now with
      | Some config => (store st config now, Some config)
      | None =>
          match validateConfig defaultConfig with
          | Some config => (store st config now, Some config)
          | None => (st, None)
          end
      end
  end.

(** [getRouteConfig]: [config.routes || {}] *)
Definition getRouteConfig (config : SiteConfig) : gmap string RouteDefinition :=
  match routes config with
  | Some rs => rs
  | None => ∅
  end.

End Loader.

(** ** src/lib/hooks/featureRouting.ts *)

Module Routing.
Import Loader.

(** [isFeatureEnabled], the evaluator of the hook. *)
Definition isFeatureEnabled (config : FeatureFlagsConfig) (userContext : UserContext)
    (featureKey : string) : bool :=
  match getFeatureConfig config featureKey with
  | None => false
  | Some featureDef =>
    if negb (def_enabled featureDef) then false
    else if lacksRequiredGroup featureDef userContext then false
    else
      let rollout := rolloutOf featureDef in
      if negb (isInRollout (userId userContext) featureKey rollout) then false
      else true
  end.

(** What the hook does with the request: [redirect(307, location)] throws
    the redirect, otherwise the request is resolved. *)
Inductive Outcome : Type :=
| Redirect (status : Z) (location : string)
| Resolve.

(** The block guarded by [routeDef.requiresGroup]; [None]: no redirect was
    thrown and the hook goes on. *)
Definition requiresGroupStep (routeDef : RouteDefinition) (userContext : UserContext)
    (currentPath : string) : option Outcome :=
  match prop routeDef "requiresGroup" with
  | None => None
  | Some requiresGroup =>
    if negb (UserCtx.isUserInGroup userContext requiresGroup) then
      match prop routeDef requiresGroup with
      | Some groupRedirect => Some (Redirect 307 groupRedirect)
      | None => Some (Redirect 307 "/")
      end
    else
      match prop routeDef requiresGroup with
      | Some groupRoute =>
          if negb (String.eqb groupRoute currentPath)
          then Some (Redirect 307 groupRoute) else None
      | None => None
      end
  end.

(** The block guarded by [routeDef.feature]. *)
Definition featureStep (config : SiteConfig) (routeDef : RouteDefinition)
    (userContext : UserContext) (currentPath : string) : option Outcome :=
  match prop routeDef "feature" with
  | None => None
  | Some feature =>
    let featureEnabled := isFeatureEnabled (flags config) userContext feature in
    let differs target :=
      match target with
      | Some route => if negb (String.eqb route currentPath) then Some route else None
      | None => None
      end in
    if featureEnabled then
      match differs (prop routeDef "enabled") with
      | Some route => Some (Redirect 307 route)
      | None => None
      end
    else
      match differs (prop routeDef "disabled") with
      | Some route => Some (Redirect 307 route)
      | None => None
      end
  end.

Definition reservedKey (group : string) : bool :=
  String.eqb group "feature" || String.eqb group "requiresGroup"
  || String.eqb group "enabled" || String.eqb group "disabled".

(** The loop over [userContext.groups]: the first group with a route of its
    own redirects. *)
Fixpoint groupRoutesStep (routeDef : RouteDefinition) (groups : list string)
    (currentPath : string) : option Outcome :=
  match groups with
  | [] => None
  | group :: rest =>
    match prop routeDef group with
    | Some groupRoute =>
        if negb (String.eqb groupRoute currentPath) && negb (reservedKey group)
        then Some (Redirect 307 groupRoute)
        else groupRoutesStep routeDef rest currentPath
    | None => groupRoutesStep routeDef rest currentPath
    end
  end.

(** [handleFeatureRouting] for a request of [currentPath], the path name of
    the request's URL (it starts with "/"); [userContext] is
    what [getUserContext] reads from the cookies of the request (the hook
    uses its groups, [isFeatureEnabled] its groups and its user id). *)
Definition handleFeatureRouting (config : SiteConfig) (userContext : UserContext)
    (currentPath : string) : Outcome :=
  match getRouteConfig config !! currentPath with
  | None => Resolve
  | Some routeDef =>
    match requiresGroupStep routeDef userContext currentPath with
    | Some outcome => outcome
    | None =>
      match featureStep config routeDef userContext currentPath with
      | Some outcome => outcome
      | None =>
        match groupRoutesStep routeDef (groups userContext) currentPath with
        | Some outcome => outcome
        | None => Resolve
        end
      end
    end
  end.

End Routing.

(** ** The remote functions that read and write the cookies *)

Module Commands.
Import UserCtx.

(** The query [checkFeature] on a request: [None] when [getUserContext]
    throws. *)
Definition checkFeatureQuery (config : FeatureFlagsConfig) (cookies : Cookies)
    (generated featureKey : string) : option FeatureCheckResult :=
  match getUserContext cookies generated with
  | Some userContext => Some (checkFeature config userContext featureKey)
  | None => None
  end.

(** The query [getUserInfo]. *)
Definition getUserInfo (cookies : Cookies) (generated : string) : option UserContext :=
  getUserContext cookies generated.

(** The command [joinGroup]: the jar after the call and the [groups] of the
    answer, or [None] when the command throws.  [generated1] and [generated2]
    are what [generateUserId()] returns in [ensureUserId] and in
    [getUserContext]. *)
Definition joinGroup (cookies : Cookies) (generated1 generated2 group : string)
  : Cookies * option (list string) :=
  let '(cookies, _) := ensureUserId cookies generated1 in
  match addUserToGroup cookies generated2 group with
  | (cookies, Some context) => (cookies, Some (groups context))
  | (cookies, None) => (cookies, None)
  end.

Definition leaveGroup (cookies : Cookies) (generated1 generated2 group : string)
  : Cookies * option (list string) :=
  let '(cookies, _) := ensureUserId cookies generated1 in
  match removeUserFromGroup cookies generated2 group with
  | (cookies, Some context) => (cookies, Some (groups context))
  | (cookies, None) => (cookies, None)
  end.

End Commands.

(** ** Auxiliary definitions for the proofs *)

(** A number that is neither NaN nor carries a minus sign: [+0], a positive
    finite value or [+Infinity]. *)
Definition num_nonneg (x : number) : Prop :=
  match x with
  | S754_zero false | S754_infinity false | S754_finite false _ _ => True
  | _ => False
  end.

(** [SFcompare] orders the values that are not NaN lexicographically by
    class, exponent and mantissa; [num_key] makes that order explicit so
    that its properties reduce to linear arithmetic. *)
Definition num_key (x : number) : Z * Z * Z :=
  match x with
  | S754_infinity true => (-2, 0, 0)
  | S754_finite true m e => (-1, - e, - Zpos m)
  | S754_zero _ | S754_nan => (0, 0, 0)
  | S754_finite false m e => (1, e, Zpos m)
  | S754_infinity false => (2, 0, 0)
  end.

Definition key_le (k1 k2 : Z * Z * Z) : Prop :=
  let '(c1, e1, m1) := k1 in
  let '(c2, e2, m2) := k2 in
  c1 < c2 \/ (c1 = c2 /\ (e1 < e2 \/ (e1 = e2 /\ m1 <= m2))).

Definition key_lt (k1 k2 : Z * Z * Z) : Prop :=
  let '(c1, e1, m1) := k1 in
  let '(c2, e2, m2) := k2 in
  c1 < c2 \/ (c1 = c2 /\ (e1 < e2 \/ (e1 = e2 /\ m1 < m2))).

(** Case analysis on two numbers for the lemmas relating [SFcompare] to
    [num_key]. *)
Ltac order_cases x y :=
  destruct x as [[]|[]| |[] ?m ?e], y as [[]|[]| |[] ?m ?e];
  cbn [SFleb SFltb SFcompare is_nan num_key key_le key_lt];
  try (split; [ intros H; try discriminate H; repeat split; lia
              | intros (H1 & H2 & H3); try discriminate; try reflexivity; lia ]).

Ltac order_finite e1 e2 m1 m2 :=
  change (Pos.compare_cont Eq m1 m2) with (Pos.compare m1 m2);
  destruct (Z.compare_spec e1 e2); [destruct (Pos.compare_spec m1 m2)| |];
  cbn [CompOpp];
  (split; [ intros Hcmp; try discriminate Hcmp; repeat split; lia
          | intros (_ & _ & Hcmp); try reflexivity; lia ]).

(** ** Sample configuration

    The feature definitions of the test configuration of
    [features.remote.test.ts] and the [promo] feature of the specification's
    example scenario. *)

Definition internalDisabled : FeatureDefinition :=
  {| def_enabled := false; def_rollout := None; def_variants := None;
     def_defaultVariant := None; def_userGroups := Some ["internal"] |}.

Definition promo : FeatureDefinition :=
  {| def_enabled := true; def_rollout := Some (num_of_Z 25); def_variants := None;
     def_defaultVariant := None; def_userGroups := Some ["beta"] |}.

Definition abTest : FeatureDefinition :=
  {| def_enabled := true; def_rollout := Some (num_of_Z 100);
     def_variants := Some ["control"; "variant-a"; "variant-b"];
     def_defaultVariant := Some "control"; def_userGroups := None |}.

Definition testConfig : FeatureFlagsConfig :=
  {| features :=
       <["internal-disabled" := internalDisabled]>
         (<["promo" := promo]> (<["ab-test" := abTest]> ∅)) |}.

Definition user (id : string) (gs : list string) : UserContext :=
  {| userId := id; groups := gs; ctx_variants := ∅ |}.

(** A user whose cookie records the empty string as the variant of ab-test. *)
Definition userWithEmptyVariant : UserContext :=
  {| userId := "user-1"; groups := []; ctx_variants := {["ab-test" := ""]} |}.

(** A config whose A/B test is stored under the key constructor. *)
Definition constructorConfig : FeatureFlagsConfig :=
  {| features := <["constructor" := abTest]> ∅ |}.

(** A user whose cookie records variant-a as the variant of ab-test. *)
Definition userWithVariantA : UserContext :=
  {| userId := "user-1"; groups := []; ctx_variants := {["ab-test" := "variant-a"]} |}.

(** ** Definitions for the further properties *)

(** The polynomial hash without wrap-around: [31 * hash + char] at each
    character. *)
Definition polyHash (codes : list Z) : Z :=
  fold_left (fun hash char => 31 * hash + char) codes 0.

(** A request without cookies, and the request of a user who holds the
    groups beta and internal and a variant of ab-test. *)
Definition noCookies : UserCtx.Cookies :=
  {| UserCtx.canary_user_id := None; UserCtx.canary_groups := UserCtx.NoCookie;
     UserCtx.canary_variants := UserCtx.NoCookie |}.

Definition memberCookies : UserCtx.Cookies :=
  {| UserCtx.canary_user_id := Some "user-1";
     UserCtx.canary_groups := UserCtx.Json ["beta"; "internal"];
     UserCtx.canary_variants := UserCtx.Json {["ab-test" := "variant-a"]} |}.

(** A request whose groups cookie is not JSON. *)
Definition brokenCookies : UserCtx.Cookies :=
  {| UserCtx.canary_user_id := None; UserCtx.canary_groups := UserCtx.BadJson;
     UserCtx.canary_variants := UserCtx.NoCookie |}.

(** The sample routes: a feature-gated page, a page for the group beta and
    a page that requires the group internal. *)
Definition dashboardRoute : Loader.RouteDefinition :=
  <["feature" := "ab-test"]>
    (<["enabled" := "/dashboard-v2"]> (<["disabled" := "/dashboard-v1"]> ∅)).

Definition betaRoute : Loader.RouteDefinition :=
  <["requiresGroup" := "beta"]> (<["beta" := "/beta-home"]> ∅).

Definition labRoute : Loader.RouteDefinition :=
  <["requiresGroup" := "internal"]> ∅.

Definition siteConfig : Loader.SiteConfig :=
  {| Loader.flags := testConfig;
     Loader.routes := Some
       (<["/dashboard" := dashboardRoute]>
          (<["/beta" := betaRoute]> (<["/lab" := labRoute]> ∅))) |}.

(** A members page whose route for the group is the page itself. *)
Definition membersConfig : Loader.SiteConfig :=
  {| Loader.flags := testConfig;
     Loader.routes := Some
       (<["/members" := <["requiresGroup" := "beta"]> (<["beta" := "/members"]> ∅)]> ∅) |}.

(** A configuration that [validateConfig] rejects: a rollout above 100. *)
Definition badConfig : Loader.SiteConfig :=
  {| Loader.flags :=
       {| features := {["too-much" :=
            {| def_enabled := true; def_rollout := Some (num_of_Z 101);
               def_variants := None; def_defaultVariant := None;
               def_userGroups := None |} ]} |};
     Loader.routes := None |}.

(** A provider that fails at every call and one that answers with the
    sample configuration. *)
Definition failingProvider : Loader.ConfigProvider := fun _ => None.
Definition siteProvider : Loader.ConfigProvider := fun _ => Some siteConfig.

(** The states the loader can be in: the state of the module at start, the
    state after [initConfigLoader], and what [loadConfig] and
    [invalidateCache] make of a state. *)
Inductive reachable (defaultConfig : Loader.SiteConfig) : Loader.LoaderState -> Prop :=
| reach_start : reachable defaultConfig Loader.initialState
| reach_init (provider : option Loader.ConfigProvider) (ttl : option number) :
    reachable defaultConfig (Loader.initConfigLoader provider ttl)
| reach_load (st : Loader.LoaderState) (now : Z) :
    reachable defaultConfig st ->
    reachable defaultConfig (Loader.loadConfig defaultConfig st now).1
| reach_invalidate (st : Loader.LoaderState) :
    reachable defaultConfig st ->
    reachable defaultConfig (Loader.invalidateCache st).

(** * Properties *)

(** ** 32-bit integer arithmetic *)

Lemma toInt32_range (z : Z) : - 2 ^ 31 <= toInt32 z < 2 ^ 31.
Proof.
  unfold toInt32.
  pose proof (Z.mod_pos_bound (z + 2 ^ 31) (2 ^ 32) ltac:(lia)). lia.
Qed.

Lemma toInt32_small (z : Z) : - 2 ^ 31 <= z < 2 ^ 31 -> toInt32 z = z.
Proof.
  intros Hz. unfold toInt32. rewrite Z.mod_small; lia.
Qed.

Lemma toInt32_idem (z : Z) : toInt32 (toInt32 z) = toInt32 z.
Proof. apply toInt32_small, toInt32_range. Qed.

Lemma and32_diag (a : Z) : and32 a a = toInt32 a.
Proof. unfold and32. rewrite Z.land_diag. apply toInt32_idem. Qed.

Lemma hashStep_range (hash char : Z) : - 2 ^ 31 <= hashStep hash char < 2 ^ 31.
Proof. unfold hashStep. rewrite and32_diag. apply toInt32_range. Qed.

(** A property that the loop body preserves holds when the loop ends. *)
Lemma fold_left_invariant {A B : Type} (P : A -> Prop) (f : A -> B -> A)
    (l : list B) (a : A) :
  P a -> (forall x b, P x -> P (f x b)) -> P (fold_left f l a).
Proof.
  intros Ha Hstep. revert a Ha.
  induction l as [|b l IH]; intros a Ha; simpl; auto.
Qed.

Lemma fold_hashStep_range (codes : list Z) (h : Z) :
  - 2 ^ 31 <= h < 2 ^ 31 -> - 2 ^ 31 <= fold_left hashStep codes h < 2 ^ 31.
Proof.
  intros Hh.
  apply (fold_left_invariant (fun z => - 2 ^ 31 <= z < 2 ^ 31) hashStep codes h Hh).
  intros x b _. apply hashStep_range.
Qed.

Lemma hashInt_range (str : string) : - 2 ^ 31 <= hashInt str < 2 ^ 31.
Proof. unfold hashInt. apply fold_hashStep_range. lia. Qed.

Lemma hashInt_abs_range (str : string) : 0 <= Z.abs (hashInt str) <= 2 ^ 31.
Proof. pose proof (hashInt_range str). lia. Qed.

Lemma toInt32_mod (z : Z) : toInt32 z mod 2 ^ 32 = z mod 2 ^ 32.
Proof.
  unfold toInt32. rewrite Zminus_mod_idemp_l. f_equal. lia.
Qed.

Lemma toInt32_congr (x y : Z) :
  x mod 2 ^ 32 = y mod 2 ^ 32 -> toInt32 x = toInt32 y.
Proof.
  intros H. unfold toInt32. f_equal.
  rewrite (Zplus_mod x), (Zplus_mod y), H. reflexivity.
Qed.

(** The loop computes the polynomial hash [31 * hash + char] modulo 2^32. *)
Lemma hashStep_poly (hash char : Z) :
  hashStep hash char = toInt32 (31 * hash + char).
Proof.
  unfold hashStep. rewrite and32_diag. unfold shl32.
  rewrite Z.shiftl_mul_pow2 by lia. change (2 ^ 5) with 32.
  apply toInt32_congr.
  replace (toInt32 (toInt32 hash * 32) - hash + char)
    with (toInt32 (toInt32 hash * 32) + (char - hash)) by lia.
  rewrite Zplus_mod, toInt32_mod, <- Zplus_mod.
  rewrite Zplus_mod, (Zmult_mod (toInt32 hash)), toInt32_mod, <- Zmult_mod, <- Zplus_mod.
  f_equal. lia.
Qed.

(** ** Structure of the binary64 operations *)

Lemma shr_1_nonneg (mrs : shr_record) : 0 <= shr_m mrs -> 0 <= shr_m (shr_1 mrs).
Proof.
  destruct mrs as [m r s]. simpl.
  destruct m as [|[p|p|]|[p|p|]]; simpl; lia.
Qed.

Lemma iter_shr_1_nonneg (p : positive) :
  forall mrs, 0 <= shr_m mrs -> 0 <= shr_m (SpecFloat.iter_pos shr_1 p mrs).
Proof.
  induction p as [p IH|p IH|]; intros mrs H; simpl.
  - apply IH, IH, shr_1_nonneg, H.
  - apply IH, IH, H.
  - apply shr_1_nonneg, H.
Qed.

Lemma shr_nonneg (mrs : shr_record) (e n : Z) :
  0 <= shr_m mrs -> 0 <= shr_m (fst (shr mrs e n)).
Proof.
  intros H. destruct n as [|p|p]; simpl; auto using iter_shr_1_nonneg.
Qed.

Lemma shr_m_of_loc (m : Z) (l : location) : shr_m (shr_record_of_loc m l) = m.
Proof. destruct l as [|[]]; reflexivity. Qed.

Lemma shr_fexp_nonneg (m e : Z) (l : location) :
  0 <= m -> 0 <= shr_m (fst (shr_fexp prec emax m e l)).
Proof.
  intros H. unfold shr_fexp. apply shr_nonneg. rewrite shr_m_of_loc. exact H.
Qed.

Lemma round_nearest_even_nonneg (m : Z) (l : location) :
  0 <= m -> 0 <= round_nearest_even m l.
Proof.
  intros H. destruct l as [|[]]; simpl; try lia.
  destruct (Z.even m); lia.
Qed.

Lemma binary_round_aux_nonneg (mx ex : Z) (lx : location) :
  0 <= mx -> num_nonneg (binary_round_aux prec emax false mx ex lx).
Proof.
  intros H. unfold binary_round_aux.
  pose proof (shr_fexp_nonneg mx ex lx H) as H1.
  destruct (shr_fexp prec emax mx ex lx) as [mrs' e']. simpl in H1.
  pose proof (shr_fexp_nonneg _ e' loc_Exact
                (round_nearest_even_nonneg _ (loc_of_shr_record mrs') H1)) as H2.
  destruct (shr_fexp prec emax _ e' loc_Exact) as [mrs'' e'']. simpl in H2.
  destruct (shr_m mrs'') as [|m|m]; simpl.
  - exact I.
  - destruct (e'' <=? emax - prec); exact I.
  - lia.
Qed.

Lemma num_of_Z_nonneg (z : Z) : 0 <= z -> num_nonneg (num_of_Z z).
Proof.
  intros H. unfold num_of_Z, binary_normalize.
  destruct z as [|m|m]; [exact I| |lia].
  unfold binary_round.
  destruct (shl_align m 0 _) as [mz ez].
  apply binary_round_aux_nonneg. lia.
Qed.

Lemma div_core_nonneg (m1 m2 : positive) (e1 e2 : Z) :
  0 <= fst (fst (SFdiv_core_binary prec emax (Zpos m1) e1 (Zpos m2) e2)).
Proof.
  unfold SFdiv_core_binary.
  set (s := _ - _ - _).
  set (m' := match s with Z0 => _ | Zpos _ => _ | Zneg _ => _ end).
  assert (Hm : 0 <= m').
  { unfold m'. destruct s; try lia. apply Z.shiftl_nonneg. lia. }
  pose proof (Z_div_mod m' (Zpos m2) ltac:(lia)) as Hd.
  destruct (Z.div_eucl m' (Zpos m2)) as [q r]. simpl.
  destruct Hd as [Hq Hr]. nia.
Qed.

Lemma num_div_nonneg (x : number) (my : positive) (ey : Z) :
  num_nonneg x -> num_nonneg (num_div x (S754_finite false my ey)).
Proof.
  destruct x as [[]|[]| |[] mx ex]; simpl; try tauto. intros _.
  pose proof (div_core_nonneg mx my ex ey) as H.
  destruct (SFdiv_core_binary prec emax (Z.pos mx) ex (Z.pos my) ey) as [[mz ez] lz].
  simpl in H. apply binary_round_aux_nonneg, H.
Qed.

Lemma num_mul_nonneg (x : number) (my : positive) (ey : Z) :
  num_nonneg x -> num_nonneg (num_mul x (S754_finite false my ey)).
Proof.
  destruct x as [[]|[]| |[] mx ex]; simpl; try tauto. intros _.
  apply binary_round_aux_nonneg. lia.
Qed.

Lemma num_nonneg_not_nan (x : number) : num_nonneg x -> is_nan x = false.
Proof. destruct x as [[]|[]| |[] m e]; simpl; tauto. Qed.

Lemma hashString_nonneg (str : string) : num_nonneg (hashString str).
Proof.
  unfold hashString.
  change (num_of_Z 2147483647) with (S754_finite false 9007199250546688 (-22)).
  apply num_div_nonneg, num_of_Z_nonneg, Z.abs_nonneg.
Qed.

Lemma percent_nonneg (str : string) :
  num_nonneg (num_mul (hashString str) (num_of_Z 100)).
Proof.
  change (num_of_Z 100) with (S754_finite false 7036874417766400 (-46)).
  apply num_mul_nonneg, hashString_nonneg.
Qed.

(** ** The order of binary64 values *)

Lemma num_le_key (x y : number) :
  num_le x y = true <->
  is_nan x = false /\ is_nan y = false /\ key_le (num_key x) (num_key y).
Proof.
  unfold num_le. order_cases x y.
  - order_finite e e0 m m0.
  - order_finite e e0 m m0.
Qed.

Lemma num_lt_key (x y : number) :
  num_lt x y = true <->
  is_nan x = false /\ is_nan y = false /\ key_lt (num_key x) (num_key y).
Proof.
  unfold num_lt. order_cases x y.
  - order_finite e e0 m m0.
  - order_finite e e0 m m0.
Qed.

Lemma key_le_trans (k1 k2 k3 : Z * Z * Z) :
  key_le k1 k2 -> key_le k2 k3 -> key_le k1 k3.
Proof.
  destruct k1 as [[c1 e1] m1], k2 as [[c2 e2] m2], k3 as [[c3 e3] m3].
  unfold key_le. lia.
Qed.

Lemma key_le_or_lt (k1 k2 : Z * Z * Z) : key_le k1 k2 \/ key_lt k2 k1.
Proof.
  destruct k1 as [[c1 e1] m1], k2 as [[c2 e2] m2]. unfold key_le, key_lt. lia.
Qed.

Lemma key_le_not_lt (k1 k2 : Z * Z * Z) : key_le k1 k2 -> ~ key_lt k2 k1.
Proof.
  destruct k1 as [[c1 e1] m1], k2 as [[c2 e2] m2]. unfold key_le, key_lt. lia.
Qed.

(** [<=] is transitive. *)
Lemma num_le_trans (x y z : number) :
  num_le x y = true -> num_le y z = true -> num_le x z = true.
Proof.
  rewrite !num_le_key. intros (Hx & _ & Hxy) (_ & Hz & Hyz).
  eauto using key_le_trans.
Qed.

(** [x <= y] rules out [x > y]. *)
Lemma num_le_not_gt (x y : number) : num_le x y = true -> num_gt x y = false.
Proof.
  intros Hle. apply num_le_key in Hle as (_ & _ & Hle).
  unfold num_gt. destruct (SFltb y x) eqn:Hlt; [|reflexivity].
  apply num_lt_key in Hlt as (_ & _ & Hlt).
  exfalso. exact (key_le_not_lt _ _ Hle Hlt).
Qed.

(** Away from NaN, [x > y] is the negation of [x <= y]. *)
Lemma num_gt_negb_le (x y : number) :
  is_nan x = false -> is_nan y = false -> num_gt x y = negb (num_le x y).
Proof.
  intros Hx Hy. destruct (num_le x y) eqn:Hle; simpl.
  - apply num_le_not_gt, Hle.
  - unfold num_gt. apply num_lt_key. repeat split; try assumption.
    destruct (key_le_or_lt (num_key x) (num_key y)) as [H|H]; [|exact H].
    assert (num_le x y = true) by (apply num_le_key; auto). congruence.
Qed.

(** ** The hash assigner *)

Lemma hashString_not_nan (str : string) : is_nan (hashString str) = false.
Proof. apply num_nonneg_not_nan, hashString_nonneg. Qed.

Lemma percent_not_nan (str : string) :
  is_nan (num_mul (hashString str) (num_of_Z 100)) = false.
Proof. apply num_nonneg_not_nan, percent_nonneg. Qed.

(** [hashString] never returns a negative number. *)
Lemma hashString_lower_bound (str : string) :
  num_le (num_of_Z 0) (hashString str) = true.
Proof.
  pose proof (hashString_nonneg str) as H.
  destruct (hashString str) as [[]|[]| |[] m e]; simpl in H; try tauto; reflexivity.
Qed.

(** The exclusion test of [assignVariant] is the negation of [isInRollout]
    whenever the rollout is a number. *)
Lemma exclusion_negb_isInRollout (userId featureKey : string) (rollout : number) :
  is_nan rollout = false ->
  num_gt (num_mul (hashString (rolloutKey userId featureKey)) (num_of_Z 100)) rollout
  = negb (isInRollout userId featureKey rollout).
Proof.
  intros Hr. unfold isInRollout. apply num_gt_negb_le; [apply percent_not_nan | exact Hr].
Qed.

Lemma isInRollout_not_excluded (userId featureKey : string) (rollout : number) :
  isInRollout userId featureKey rollout = true ->
  num_gt (num_mul (hashString (rolloutKey userId featureKey)) (num_of_Z 100)) rollout
  = false.
Proof. unfold isInRollout. apply num_le_not_gt. Qed.


(** The embedding agrees with the expectations of [hash.test.ts]. *)
Example hash_test_expectations :
  hashString "" = S754_zero false /\
  num_lt (hashString "test-string") (num_of_Z 1) = true /\
  assignVariant "user-123" "feature" ["only-variant"] (num_of_Z 100)
  = JSstr "only-variant" /\
  assignVariant "user-123" "feature" ["control"; "variant-a"; "variant-b"] (num_of_Z 0)
  = JSnull /\
  isInRollout "user-123" "feature" (num_of_Z 0) = false /\
  isInRollout "user-123" "feature" (num_of_Z 100) = true.
Proof. repeat split; vm_compute; reflexivity. Qed.

(** C4 (failing input).  The string "polygenelubricants" hashes to the
    32-bit integer -2^31, whose absolute value 2^31 exceeds the divisor
    2147483647: hashString returns 1.0000000004656613, which is not below 1
    but above it. *)
Theorem hashString_above_one :
  hashInt "polygenelubricants" = - 2 ^ 31 /\
  hashString "polygenelubricants" = S754_finite false 4503599629467648 (-52) /\
  num_lt (hashString "polygenelubricants") (num_of_Z 1) = false /\
  num_gt (hashString "polygenelubricants") (num_of_Z 1) = true.
Proof. repeat split; vm_compute; reflexivity. Qed.

(** C5 (failing inputs).  The key "user-5syeab:feature:rollout" hashes to 0,
    so this user is inside a rollout of 0 percent; the key
    "user-ohivzgb:feature:rollout" hashes to -2^31, so this user is outside
    a rollout of 100 percent. *)
Theorem isInRollout_boundaries_fail :
  hashInt (rolloutKey "user-5syeab" "feature") = 0 /\
  isInRollout "user-5syeab" "feature" (num_of_Z 0) = true /\
  hashInt (rolloutKey "user-ohivzgb" "feature") = - 2 ^ 31 /\
  isInRollout "user-ohivzgb" "feature" (num_of_Z 100) = false.
Proof. repeat split; vm_compute; reflexivity. Qed.

(** C7 (counterexample).  With NaN as the rollout, isInRollout excludes
    user-123 from the feature, yet assignVariant does not return null for
    the variants control and variant-a: both comparisons with NaN are false,
    so the user passes the exclusion test of assignVariant and gets
    variant-a. *)
Lemma assignVariant_nan_rollout_not_null :
  is_nan S754_nan = true /\
  isInRollout "user-123" "feature" S754_nan = false /\
  assignVariant "user-123" "feature" ["control"; "variant-a"] S754_nan
  = JSstr "variant-a" /\
  assignVariant "user-123" "feature" ["control"; "variant-a"] S754_nan <> JSnull.
Proof.
  split_and!; try (vm_compute; reflexivity).
  vm_compute. discriminate.
Qed.

(** C7 (amended).  assignVariant returns null for an empty variants list
    whatever the rollout; returns null when the rollout is not NaN and
    isInRollout excludes the user; and returns
    variants[floor(hashString(userId:featureKey:variant) * variants.length)]
    when isInRollout includes the user and the list is not empty. *)
Theorem assignVariant_spec (userId featureKey : string) (variants : list string)
    (rollout : number) :
  assignVariant userId featureKey [] rollout = JSnull /\
  (is_nan rollout = false ->
   isInRollout userId featureKey rollout = false ->
   assignVariant userId featureKey variants rollout = JSnull) /\
  (variants <> [] ->
   isInRollout userId featureKey rollout = true ->
   assignVariant userId featureKey variants rollout =
   array_get variants
     (Math_floor
        (num_mul (hashString (userId +:+ ":" +:+ featureKey +:+ ":variant"))
                 (num_of_Z (Z.of_nat (length variants)))))).
Proof.
  split; [reflexivity|]. split.
  - intros Hr Hout. unfold assignVariant.
    destruct variants as [|v vs]; [reflexivity|].
    rewrite exclusion_negb_isInRollout, Hout by exact Hr. reflexivity.
  - intros Hne Hin. unfold assignVariant.
    destruct variants as [|v vs]; [contradiction|].
    rewrite isInRollout_not_excluded by exact Hin. reflexivity.
Qed.

Lemma assignVariant_spec_witness :
  is_nan (num_of_Z 10) = false /\
  isInRollout "user-123" "feature" (num_of_Z 10) = false /\
  assignVariant "user-123" "feature" ["control"; "variant-a"] (num_of_Z 10) = JSnull /\
  isInRollout "user-123" "feature" (num_of_Z 50) = true /\
  assignVariant "user-123" "feature" ["control"; "variant-a"] (num_of_Z 50)
  = JSstr "variant-a".
Proof.
  split; [reflexivity|]. split; [vm_compute; reflexivity|]. split.
  - apply (assignVariant_spec "user-123" "feature" ["control"; "variant-a"] (num_of_Z 10));
      vm_compute; reflexivity.
  - split; [vm_compute; reflexivity|].
    rewrite (proj2 (proj2 (assignVariant_spec "user-123" "feature"
                             ["control"; "variant-a"] (num_of_Z 50))));
      [vm_compute; reflexivity | discriminate | vm_compute; reflexivity].
Defined.

(** C8.  Rollout monotonicity: a user inside a rollout of p1 percent is
    inside every rollout of p2 percent with p2 >= p1. *)
Theorem isInRollout_monotone (u f : string) (p1 p2 : number) :
  num_le p1 p2 = true ->
  isInRollout u f p1 = true ->
  isInRollout u f p2 = true.
Proof.
  unfold isInRollout. intros H12 H1. exact (num_le_trans _ _ _ H1 H12).
Qed.

Lemma isInRollout_monotone_witness :
  num_le (num_of_Z 25) (num_of_Z 50) = true /\
  isInRollout "u1" "promo" (num_of_Z 25) = true /\
  isInRollout "u1" "promo" (num_of_Z 50) = true.
Proof.
  split; [reflexivity|]. split; [vm_compute; reflexivity|].
  apply (isInRollout_monotone "u1" "promo" (num_of_Z 25) (num_of_Z 50));
    vm_compute; reflexivity.
Defined.

(** ** The feature evaluator *)

Lemma checkFeature_globally_disabled (config : FeatureFlagsConfig)
    (userContext : UserContext) (featureKey : string) (featureDef : FeatureDefinition) :
  getFeatureConfig config featureKey = Some featureDef ->
  def_enabled featureDef = false ->
  checkFeature config userContext featureKey =
  {| enabled := false; variant := JSundefined;
     reason := "Feature is globally disabled" |}.
Proof.
  intros Hdef Hoff. unfold checkFeature. rewrite Hdef, Hoff. reflexivity.
Qed.

Lemma checkFeature_lacks_group (config : FeatureFlagsConfig)
    (userContext : UserContext) (featureKey : string) (featureDef : FeatureDefinition) :
  getFeatureConfig config featureKey = Some featureDef ->
  def_enabled featureDef = true ->
  lacksRequiredGroup featureDef userContext = true ->
  checkFeature config userContext featureKey =
  {| enabled := false; variant := JSundefined;
     reason := "User not in required group" |}.
Proof.
  intros Hdef Hon Hgrp. unfold checkFeature. rewrite Hdef, Hon, Hgrp. reflexivity.
Qed.

(** When the result says enabled, every gate was passed. *)
Lemma checkFeature_enabled_inv (config : FeatureFlagsConfig)
    (userContext : UserContext) (featureKey : string) :
  enabled (checkFeature config userContext featureKey) = true ->
  exists featureDef,
    getFeatureConfig config featureKey = Some featureDef /\
    def_enabled featureDef = true /\
    lacksRequiredGroup featureDef userContext = false /\
    isInRollout (userId userContext) featureKey (rolloutOf featureDef) = true.
Proof.
  unfold checkFeature.
  destruct (getFeatureConfig config featureKey) as [featureDef|]; [|discriminate].
  destruct (def_enabled featureDef) eqn:Hon; simpl; [|discriminate].
  destruct (lacksRequiredGroup featureDef userContext) eqn:Hgrp; [discriminate|].
  destruct (isInRollout _ _ _) eqn:Hin; simpl; [|discriminate].
  intros _. exists featureDef. auto.
Qed.

Lemma fold_left_cons_eq {A B : Type} (f : A -> B -> A) (b : B) (l : list B) (a : A) :
  fold_left f (b :: l) a = fold_left f l (f a b).
Proof. reflexivity. Qed.

Lemma fold_left_nil_eq {A B : Type} (f : A -> B -> A) (a : A) :
  fold_left f [] a = a.
Proof. reflexivity. Qed.

Lemma assignResult_lookup (results : gmap string FeatureCheckResult
                                    * option FeatureCheckResult)
    (k : string) (entry : FeatureCheckResult) (key : string) :
  (assignResult results k entry).1 !! key
  = if decide (k = key /\ key <> "__proto__") then Some entry else results.1 !! key.
Proof.
  unfold assignResult. destruct (String.eqb k "__proto__") eqn:Hk; simpl.
  - apply String.eqb_eq in Hk. subst k.
    rewrite decide_False by (intros [<- Hne]; apply Hne; reflexivity). reflexivity.
  - apply String.eqb_neq in Hk. destruct (decide (k = key)) as [<-|Hne].
    + rewrite decide_True by (split; [reflexivity | exact Hk]). apply lookup_insert_eq.
    + rewrite decide_False by (intros [Heq _]; exact (Hne Heq)).
      apply lookup_insert_ne, Hne.
Qed.

(** An own definition is what [getFeatureConfig] finds, and a definition
    whose enabled flag is set is an own one. *)
Lemma getFeatureConfig_own (config : FeatureFlagsConfig) (featureKey : string)
    (featureDef : FeatureDefinition) :
  features config !! featureKey = Some featureDef ->
  getFeatureConfig config featureKey = Some featureDef.
Proof. unfold getFeatureConfig. intros ->. reflexivity. Qed.

Lemma getFeatureConfig_enabled_own (config : FeatureFlagsConfig)
    (featureKey : string) (featureDef : FeatureDefinition) :
  getFeatureConfig config featureKey = Some featureDef ->
  def_enabled featureDef = true ->
  features config !! featureKey = Some featureDef.
Proof.
  unfold getFeatureConfig.
  destruct (features config !! featureKey) as [own|]; [auto|].
  destruct (onPrototype featureKey); [|discriminate].
  intros [= <-]. discriminate.
Qed.

Lemma fold_assign_prototype (config : FeatureFlagsConfig) (userContext : UserContext)
    (keys : list string)
    (acc : gmap string FeatureCheckResult * option FeatureCheckResult) :
  (fold_left
     (fun results k => assignResult results k (checkFeaturesEntry config userContext k))
     keys acc).2
  = if decide ("__proto__" ∈ keys)
    then Some (checkFeaturesEntry config userContext "__proto__")
    else acc.2.
Proof.
  revert acc. induction keys as [|k keys IH]; intros acc.
  - rewrite fold_left_nil_eq. rewrite decide_False; [reflexivity|].
    intros Hin. apply elem_of_nil in Hin. contradiction.
  - rewrite fold_left_cons_eq, IH.
    destruct (decide ("__proto__" ∈ keys)) as [Hin|Hnin].
    + rewrite decide_True by (right; exact Hin). reflexivity.
    + unfold assignResult. destruct (String.eqb k "__proto__") eqn:Hk; simpl.
      * apply String.eqb_eq in Hk. subst k. rewrite decide_True by left. reflexivity.
      * apply String.eqb_neq in Hk. rewrite decide_False; [reflexivity|].
        intros Hc. apply elem_of_cons in Hc as [Hc|Hc]; [|contradiction].
        apply Hk. symmetry. exact Hc.
Qed.

(** The batch query stores, under each key it was given other than
    [__proto__], the entry its loop body computes for that key; other keys
    are absent. *)
Lemma fold_insert_lookup (config : FeatureFlagsConfig) (userContext : UserContext)
    (keys : list string)
    (acc : gmap string FeatureCheckResult * option FeatureCheckResult)
    (key : string) :
  (fold_left
     (fun results k => assignResult results k (checkFeaturesEntry config userContext k))
     keys acc).1 !! key
  = if decide (key ∈ keys /\ key <> "__proto__")
    then Some (checkFeaturesEntry config userContext key)
    else acc.1 !! key.
Proof.
  revert acc. induction keys as [|k keys IH]; intros acc.
  - rewrite fold_left_nil_eq.
    rewrite decide_False; [reflexivity|].
    intros [Hin _]. apply elem_of_nil in Hin. contradiction.
  - rewrite fold_left_cons_eq, IH.
    destruct (decide (key ∈ keys /\ key <> "__proto__")) as [[Hin Hne]|Hnin].
    + rewrite decide_True by (split; [right; exact Hin | exact Hne]). reflexivity.
    + rewrite assignResult_lookup.
      destruct (decide (k = key /\ key <> "__proto__")) as [[-> Hne]|Hnk].
      * rewrite decide_True by (split; [left | exact Hne]). reflexivity.
      * rewrite decide_False; [reflexivity|].
        intros [Hc Hne]. apply elem_of_cons in Hc as [->|Hc]; tauto.
Qed.

Lemma checkFeatures_lookup (config : FeatureFlagsConfig) (userContext : UserContext)
    (featureKeys : list string) (key : string) :
  key ∈ featureKeys ->
  key <> "__proto__" ->
  checkFeatures config userContext featureKeys !! key
  = Some (checkFeaturesEntry config userContext key).
Proof.
  intros Hin Hne. unfold checkFeatures, checkFeaturesObject. rewrite fold_insert_lookup.
  rewrite decide_True by (split; assumption). reflexivity.
Qed.

(** The two queries agree on the enabled flag of every key. *)
Lemma checkFeaturesEntry_enabled (config : FeatureFlagsConfig)
    (userContext : UserContext) (key : string) :
  enabled (checkFeaturesEntry config userContext key)
  = enabled (checkFeature config userContext key).
Proof.
  unfold checkFeaturesEntry, checkFeature.
  destruct (getFeatureConfig config key) as [featureDef|]; [|reflexivity].
  destruct (negb (def_enabled featureDef)); [reflexivity|].
  destruct (lacksRequiredGroup featureDef userContext); [reflexivity|].
  cbv zeta. destruct (negb (isInRollout _ _ _)); [reflexivity|].
  destruct (def_variants featureDef) as [[|v vs]|]; reflexivity.
Qed.

Lemma checkFeatures_enabled_agrees (config : FeatureFlagsConfig)
    (userContext : UserContext) (featureKeys : list string) (key : string) :
  key ∈ featureKeys ->
  key <> "__proto__" ->
  enabled <$> (checkFeatures config userContext featureKeys !! key)
  = Some (enabled (checkFeature config userContext key)).
Proof.
  intros Hin Hne. rewrite checkFeatures_lookup by assumption. simpl.
  rewrite checkFeaturesEntry_enabled. reflexivity.
Qed.

(** The batch query reports the persisted variant of an enabled feature and
    nothing else. *)
Lemma checkFeaturesEntry_variant (config : FeatureFlagsConfig)
    (userContext : UserContext) (key : string) :
  enabled (checkFeaturesEntry config userContext key) = true ->
  variant (checkFeaturesEntry config userContext key)
  = readProp (ctx_variants userContext) key.
Proof.
  unfold checkFeaturesEntry.
  destruct (getFeatureConfig config key) as [featureDef|]; [|discriminate].
  destruct (negb (def_enabled featureDef)); [discriminate|].
  destruct (lacksRequiredGroup featureDef userContext); [discriminate|].
  cbv zeta. destruct (negb (isInRollout _ _ _)); [discriminate|]. reflexivity.
Qed.

(** C1 (failing input).  The feature internal-disabled has enabled = false
    and userGroups = [internal]; for a member of the group internal the
    evaluator still answers enabled = false, "Feature is globally disabled".
    A user outside the group gets the same answer. *)
Theorem checkFeature_disabled_for_group_member :
  features testConfig !! "internal-disabled" = Some internalDisabled /\
  hasRequiredGroup ["internal"] (user "user-123" ["internal"]) = true /\
  checkFeature testConfig (user "user-123" ["internal"]) "internal-disabled"
  = {| enabled := false; variant := JSundefined;
       reason := "Feature is globally disabled" |} /\
  checkFeature testConfig (user "user-123" []) "internal-disabled"
  = {| enabled := false; variant := JSundefined;
       reason := "Feature is globally disabled" |}.
Proof. repeat split; vm_compute; reflexivity. Qed.

(** C2 (failing inputs).  The feature promo has enabled = true, rollout = 25
    and userGroups = [beta].  The member user-123 of the group beta falls
    outside the 25 percent and is answered enabled = false; the user u1, who
    is inside the 25 percent but not in the group, is answered
    enabled = false as well, without a rollout check. *)
Theorem checkFeature_group_and_rollout :
  features testConfig !! "promo" = Some promo /\
  isInRollout "user-123" "promo" (num_of_Z 25) = false /\
  checkFeature testConfig (user "user-123" ["beta"]) "promo"
  = {| enabled := false; variant := JSundefined;
       reason := "User not in rollout percentage" |} /\
  isInRollout "u1" "promo" (num_of_Z 25) = true /\
  checkFeature testConfig (user "u1" []) "promo"
  = {| enabled := false; variant := JSundefined;
       reason := "User not in required group" |}.
Proof. repeat split; vm_compute; reflexivity. Qed.

(** C3 (failing input).  For the feature ab-test and a user without a
    persisted variant the single query assigns the variant "variant-b" while
    the batch query, on the same config and user, returns no variant. *)
Theorem checkFeatures_drops_variant :
  checkFeature testConfig (user "user-1" []) "ab-test"
  = {| enabled := true; variant := JSstr "variant-b";
       reason := "Feature enabled with variant" |} /\
  checkFeatures testConfig (user "user-1" []) ["ab-test"] !! "ab-test"
  = Some {| enabled := true; variant := JSundefined; reason := "Feature enabled" |}.
Proof. split; vm_compute; reflexivity. Qed.

(** A key that is neither configured nor the name of a member of
    [Object.prototype] evaluates to "Feature not found". *)
Lemma checkFeature_absent_key (config : FeatureFlagsConfig)
    (userContext : UserContext) (featureKey : string) :
  features config !! featureKey = None ->
  onPrototype featureKey = false ->
  checkFeature config userContext featureKey
  = {| enabled := false; variant := JSundefined; reason := "Feature not found" |}.
Proof.
  intros Hnone Hproto. unfold checkFeature, getFeatureConfig.
  rewrite Hnone, Hproto. reflexivity.
Qed.

(** C9 (failing inputs).  The keys constructor, toString and __proto__ are
    absent from the features mapping of the sample config, yet the evaluator
    does not answer "Feature not found" for them: the read
    config.features[featureKey] finds the member of Object.prototype, whose
    enabled field is undefined, and the answer is "Feature is globally
    disabled".  A key such as no-such-feature is answered "Feature not
    found". *)
Theorem checkFeature_inherited_key_not_reported_missing :
  features testConfig !! "constructor" = None /\
  checkFeature testConfig (user "user-123" ["beta"]) "constructor"
  = {| enabled := false; variant := JSundefined;
       reason := "Feature is globally disabled" |} /\
  features testConfig !! "toString" = None /\
  checkFeature testConfig (user "user-123" ["beta"]) "toString"
  = {| enabled := false; variant := JSundefined;
       reason := "Feature is globally disabled" |} /\
  features testConfig !! "__proto__" = None /\
  checkFeature testConfig (user "user-123" ["beta"]) "__proto__"
  = {| enabled := false; variant := JSundefined;
       reason := "Feature is globally disabled" |} /\
  features testConfig !! "no-such-feature" = None /\
  checkFeature testConfig (user "user-123" ["beta"]) "no-such-feature"
  = {| enabled := false; variant := JSundefined; reason := "Feature not found" |}.
Proof. split_and!; vm_compute; reflexivity. Qed.

(** C6 (counterexample).  With the empty string persisted as the variant of
    ab-test, the feature is enabled for the user and has a non-empty variants
    list, yet the returned variant is not the persisted one: the evaluator
    treats the falsy entry as missing and computes "variant-b". *)
Lemma persisted_empty_variant_ignored :
  def_variants abTest = Some ["control"; "variant-a"; "variant-b"] /\
  features testConfig !! "ab-test" = Some abTest /\
  enabled (checkFeature testConfig userWithEmptyVariant "ab-test") = true /\
  ctx_variants userWithEmptyVariant !! "ab-test" = Some "" /\
  variant (checkFeature testConfig userWithEmptyVariant "ab-test") = JSstr "variant-b" /\
  variant (checkFeature testConfig userWithEmptyVariant "ab-test") <> JSstr "".
Proof.
  repeat split; try (vm_compute; reflexivity).
  vm_compute. discriminate.
Qed.

(** C6 (amended).  When the definition has a non-empty variants list and the
    feature is enabled for the user, and featureKey is not the name of a
    member of Object.prototype unless a variant is persisted under it, the
    result is enabled = true with the reason "Feature enabled with variant",
    and its variant is the persisted entry of userContext.variants[featureKey]
    when that entry is present and not the empty string; otherwise it is the
    first truthy value among the result of assignVariant (called with the
    feature's rollout) and defaultVariant, and the first entry of variants
    when neither is truthy. *)
Theorem checkFeature_variant_resolution (config : FeatureFlagsConfig)
    (userContext : UserContext) (featureKey : string)
    (featureDef : FeatureDefinition) (first : string) (rest : list string) :
  getFeatureConfig config featureKey = Some featureDef ->
  def_variants featureDef = Some (first :: rest) ->
  enabled (checkFeature config userContext featureKey) = true ->
  (ctx_variants userContext !! featureKey = None -> onPrototype featureKey = false) ->
  let computed :=
    js_or (js_or (assignVariant (userId userContext) featureKey (first :: rest)
                    (rolloutOf featureDef))
                 (of_option (def_defaultVariant featureDef)))
          (JSstr first) in
  checkFeature config userContext featureKey =
  {| enabled := true;
     variant := match ctx_variants userContext !! featureKey with
                | Some persisted =>
                    if String.eqb persisted "" then computed else JSstr persisted
                | None => computed
                end;
     reason := "Feature enabled with variant" |}.
Proof.
  intros Hdef Hvs Hen Hown.
  apply checkFeature_enabled_inv in Hen as (def' & Hdef' & Hon & Hgrp & Hin).
  rewrite Hdef in Hdef'. injection Hdef' as <-.
  unfold checkFeature. rewrite Hdef, Hon, Hgrp. cbv zeta. rewrite Hin, Hvs. simpl negb.
  cbv iota. f_equal. unfold resolveVariant, readProp.
  destruct (ctx_variants userContext !! featureKey) as [persisted|]; simpl.
  - destruct (String.eqb persisted ""); reflexivity.
  - rewrite Hown by reflexivity. reflexivity.
Qed.

Lemma checkFeature_variant_resolution_witness :
  getFeatureConfig testConfig "ab-test" = Some abTest /\
  def_variants abTest = Some ["control"; "variant-a"; "variant-b"] /\
  enabled (checkFeature testConfig userWithVariantA "ab-test") = true /\
  onPrototype "ab-test" = false /\
  checkFeature testConfig userWithVariantA "ab-test" =
  {| enabled := true; variant := JSstr "variant-a";
     reason := "Feature enabled with variant" |}.
Proof.
  split; [vm_compute; reflexivity|]. split; [reflexivity|].
  split; [vm_compute; reflexivity|]. split; [reflexivity|].
  exact (checkFeature_variant_resolution testConfig userWithVariantA "ab-test" abTest
           "control" ["variant-a"; "variant-b"]
           ltac:(vm_compute; reflexivity) eq_refl ltac:(vm_compute; reflexivity)
           (fun _ => eq_refl)).
Defined.

(** A feature stored under the key constructor, for a user without a
    persisted variant: the read userContext.variants[featureKey] finds the
    inherited member of Object.prototype, which is truthy, and the evaluator
    returns it as the variant without computing one. *)
Example inherited_member_served_as_variant :
  features constructorConfig !! "constructor" = Some abTest /\
  ctx_variants (user "user-1" []) !! "constructor" = None /\
  checkFeature constructorConfig (user "user-1" []) "constructor" =
  {| enabled := true; variant := JSinherited "constructor";
     reason := "Feature enabled with variant" |} /\
  checkFeatures constructorConfig (user "user-1" []) ["constructor"] !! "constructor" =
  Some {| enabled := true; variant := JSinherited "constructor";
          reason := "Feature enabled" |}.
Proof. split_and!; vm_compute; reflexivity. Qed.

(** The fallback at work: the variant key of user-osaddvk hashes to
    2147483647, so hashString is exactly 1, the index is variants.length,
    assignVariant returns undefined and the evaluator answers with
    defaultVariant. *)
Example fallback_on_index_out_of_range :
  isInRollout "user-osaddvk" "ab-test" (num_of_Z 100) = true /\
  variantIndex "user-osaddvk" "ab-test" ["control"; "variant-a"; "variant-b"] = Some 3 /\
  assignVariant "user-osaddvk" "ab-test" ["control"; "variant-a"; "variant-b"]
    (num_of_Z 100) = JSundefined /\
  checkFeature testConfig (user "user-osaddvk" []) "ab-test" =
  {| enabled := true; variant := JSstr "control";
     reason := "Feature enabled with variant" |}.
Proof. repeat split; vm_compute; reflexivity. Qed.



(** * Further properties *)

(** ** hash.ts *)

Lemma fold_hashStep_poly (codes : list Z) :
  forall h a : Z,
    h = toInt32 a ->
    fold_left hashStep codes h
    = toInt32 (fold_left (fun hash char => 31 * hash + char) codes a).
Proof.
  induction codes as [|c codes IH]; intros h a Hh.
  - rewrite !fold_left_nil_eq. exact Hh.
  - rewrite !fold_left_cons_eq. apply IH.
    rewrite hashStep_poly, Hh. apply toInt32_congr.
    rewrite Zplus_mod, Zmult_mod, toInt32_mod, <- Zmult_mod, <- Zplus_mod.
    reflexivity.
Qed.

(** X1.  The loop of hashString computes the polynomial hash
    c0 * 31^(n-1) + ... + c(n-1) of the character codes, reduced once to a
    32-bit signed integer: the wrap-around at each turn does not change the
    result. *)
Theorem hashInt_polynomial (str : string) :
  hashInt str = toInt32 (polyHash (charCodes str)).
Proof.
  unfold hashInt, polyHash. apply fold_hashStep_poly.
  symmetry. apply toInt32_small. lia.
Qed.

(** X2.  hashString returns a number that is not NaN and not negative, for
    every string. *)
Theorem hashString_nonnegative_number (str : string) :
  is_nan (hashString str) = false /\
  num_lt (hashString str) (num_of_Z 0) = false /\
  num_le (num_of_Z 0) (hashString str) = true.
Proof.
  pose proof (hashString_nonneg str) as H.
  destruct (hashString str) as [[]|[]| |[] m e]; simpl in H; try tauto;
    repeat split; reflexivity.
Qed.

Lemma array_get_elem (arr : list string) (i : option Z) (s : string) :
  array_get arr i = JSstr s -> s ∈ arr.
Proof.
  destruct i as [z|]; simpl; [|discriminate].
  destruct (0 <=? z); [|discriminate].
  destruct (nth_error arr (Z.to_nat z)) as [x|] eqn:Hnth; simpl; [|discriminate].
  intros [= <-]. apply list_elem_of_In. eapply nth_error_In, Hnth.
Qed.

Lemma assignVariant_elem (userId featureKey : string)
    (variants : list string) (rollout : number) (s : string) :
  assignVariant userId featureKey variants rollout = JSstr s -> s ∈ variants.
Proof.
  unfold assignVariant. destruct variants as [|v vs]; [discriminate|].
  destruct (num_gt _ rollout); [discriminate|]. apply array_get_elem.
Qed.

(** X3.  A string returned by assignVariant is an entry of the variants
    list it was given. *)
Theorem assignVariant_returns_entry (userId featureKey : string)
    (variants : list string) (rollout : number) (s : string) :
  assignVariant userId featureKey variants rollout = JSstr s -> s ∈ variants.
Proof. apply assignVariant_elem. Qed.

Lemma assignVariant_returns_entry_witness :
  assignVariant "user-123" "feature" ["control"; "variant-a"] (num_of_Z 50)
  = JSstr "variant-a" /\
  "variant-a" ∈ ["control"; "variant-a"].
Proof.
  split; [vm_compute; reflexivity|].
  apply (assignVariant_returns_entry "user-123" "feature" ["control"; "variant-a"]
           (num_of_Z 50) "variant-a").
  vm_compute; reflexivity.
Defined.

(** X4.  A rollout below zero includes no user: isInRollout is false and
    assignVariant returns null, for every user, feature and variants list. *)
Theorem negative_rollout_excludes_everyone (userId featureKey : string)
    (variants : list string) (rollout : number) :
  num_lt rollout (num_of_Z 0) = true ->
  isInRollout userId featureKey rollout = false /\
  assignVariant userId featureKey variants rollout = JSnull.
Proof.
  intros Hneg.
  assert (Hout : isInRollout userId featureKey rollout = false).
  { destruct (isInRollout userId featureKey rollout) eqn:Hin; [|reflexivity].
    unfold isInRollout in Hin.
    pose proof (percent_nonneg (rolloutKey userId featureKey)) as Hp.
    assert (H0 : num_le (num_of_Z 0)
                   (num_mul (hashString (rolloutKey userId featureKey)) (num_of_Z 100))
                 = true).
    { destruct (num_mul _ _) as [[]|[]| |[] m e]; simpl in Hp; try tauto; reflexivity. }
    pose proof (num_le_trans _ _ _ H0 Hin) as H0r.
    apply num_le_not_gt in H0r. unfold num_gt in H0r. unfold num_lt in Hneg.
    congruence. }
  split; [exact Hout|].
  unfold assignVariant. destruct variants as [|v vs]; [reflexivity|].
  rewrite exclusion_negb_isInRollout, Hout; [reflexivity|].
  apply num_lt_key in Hneg as (Hnan & _). exact Hnan.
Qed.

Lemma negative_rollout_excludes_everyone_witness :
  num_lt (num_of_Z (-5)) (num_of_Z 0) = true /\
  isInRollout "user-5syeab" "feature" (num_of_Z (-5)) = false /\
  assignVariant "user-5syeab" "feature" ["control"] (num_of_Z (-5)) = JSnull.
Proof.
  split; [vm_compute; reflexivity|].
  apply (negative_rollout_excludes_everyone "user-5syeab" "feature" ["control"]
           (num_of_Z (-5))).
  vm_compute; reflexivity.
Defined.

(** ** features.remote.ts: the two queries *)

Lemma includes_elem (l : list string) (x : string) : includes l x = true <-> x ∈ l.
Proof.
  unfold includes. rewrite existsb_exists. split.
  - intros (y & Hy & Heq). apply String.eqb_eq in Heq as ->.
    apply list_elem_of_In, Hy.
  - intros Hx. exists x. split; [apply list_elem_of_In, Hx | apply String.eqb_refl].
Qed.

Lemma hasRequiredGroup_elem (userGroups : list string) (userContext : UserContext) :
  hasRequiredGroup userGroups userContext = true <->
  exists group, group ∈ userGroups /\ group ∈ groups userContext.
Proof.
  unfold hasRequiredGroup. rewrite existsb_exists. split.
  - intros (g & Hg & Hin). exists g. split; [apply list_elem_of_In, Hg|].
    apply includes_elem, Hin.
  - intros (g & Hg & Hin). exists g. split; [apply list_elem_of_In, Hg|].
    apply includes_elem, Hin.
Qed.

(** X5.  checkFeature answers enabled exactly when the definition exists,
    its enabled flag is set, the user holds one of the required groups (when
    the definition lists any) and the user is inside the rollout; a result
    that is not enabled carries no variant. *)
Theorem checkFeature_enabled_iff (config : FeatureFlagsConfig)
    (userContext : UserContext) (featureKey : string) :
  (enabled (checkFeature config userContext featureKey) = true <->
   exists featureDef,
     features config !! featureKey = Some featureDef /\
     def_enabled featureDef = true /\
     (forall userGroups, def_userGroups featureDef = Some userGroups ->
        userGroups <> [] ->
        exists group, group ∈ userGroups /\ group ∈ groups userContext) /\
     isInRollout (userId userContext) featureKey (rolloutOf featureDef) = true) /\
  (enabled (checkFeature config userContext featureKey) = false ->
   variant (checkFeature config userContext featureKey) = JSundefined).
Proof.
  split; [split|].
  - intros Hen.
    apply checkFeature_enabled_inv in Hen as (def & Hdef & Hon & Hgrp & Hin).
    apply getFeatureConfig_enabled_own in Hdef; [|exact Hon].
    exists def. repeat split; try assumption.
    intros gs Hgs Hne. unfold lacksRequiredGroup in Hgrp. rewrite Hgs in Hgrp.
    destruct gs as [|g gs]; [contradiction|].
    apply negb_false_iff in Hgrp. apply hasRequiredGroup_elem, Hgrp.
  - intros (def & Hdef & Hon & Hgrp & Hin).
    unfold checkFeature. rewrite (getFeatureConfig_own _ _ _ Hdef), Hon. simpl negb.
    assert (Hlack : lacksRequiredGroup def userContext = false).
    { unfold lacksRequiredGroup.
      destruct (def_userGroups def) as [[|g gs]|] eqn:Hgs; try reflexivity.
      apply negb_false_iff, hasRequiredGroup_elem.
      apply (Hgrp (g :: gs)); [reflexivity | discriminate]. }
    rewrite Hlack. cbv zeta. rewrite Hin. simpl negb.
    destruct (def_variants def) as [[|v vs]|]; reflexivity.
  - unfold checkFeature.
    destruct (getFeatureConfig config featureKey) as [def|]; [|reflexivity].
    destruct (negb (def_enabled def)); [reflexivity|].
    destruct (lacksRequiredGroup def userContext); [reflexivity|].
    cbv zeta. destruct (negb (isInRollout _ _ _)); [reflexivity|].
    destruct (def_variants def) as [[|v vs]|]; simpl; intros; try discriminate.
Qed.

Lemma checkFeature_resolves (config : FeatureFlagsConfig)
    (userContext : UserContext) (featureKey : string)
    (featureDef : FeatureDefinition) (first : string) (rest : list string) :
  features config !! featureKey = Some featureDef ->
  def_variants featureDef = Some (first :: rest) ->
  enabled (checkFeature config userContext featureKey) = true ->
  checkFeature config userContext featureKey =
  {| enabled := true;
     variant := resolveVariant featureDef userContext featureKey (first :: rest)
                  (rolloutOf featureDef);
     reason := "Feature enabled with variant" |}.
Proof.
  intros Hdef Hvs. unfold checkFeature. rewrite (getFeatureConfig_own _ _ _ Hdef).
  destruct (negb (def_enabled featureDef)); [discriminate|].
  destruct (lacksRequiredGroup featureDef userContext); [discriminate|].
  cbv zeta. destruct (negb (isInRollout _ _ _)); [discriminate|].
  rewrite Hvs. reflexivity.
Qed.

Lemma array_get_not_inherited (arr : list string) (i : option Z) (name : string) :
  array_get arr i <> JSinherited name.
Proof.
  destruct i as [z|]; simpl; [|discriminate].
  destruct (0 <=? z); [|discriminate].
  destruct (nth_error arr (Z.to_nat z)); discriminate.
Qed.

Lemma assignVariant_not_inherited (userId featureKey : string)
    (variants : list string) (rollout : number) (name : string) :
  assignVariant userId featureKey variants rollout <> JSinherited name.
Proof.
  unfold assignVariant. destruct variants as [|v vs]; [discriminate|].
  destruct (num_gt _ rollout); [discriminate|]. apply array_get_not_inherited.
Qed.

Lemma js_or_string (a : jsval) (s : string) :
  (forall name, a <> JSinherited name) ->
  exists t, js_or a (JSstr s) = JSstr t /\ (a = JSstr t \/ t = s).
Proof.
  intros Hown. unfold js_or. destruct a as [| |x|x]; simpl; eauto.
  - destruct (negb (String.eqb x "")); eauto.
  - destruct (Hown x). reflexivity.
Qed.

(** The value the evaluator computes when no variant is persisted is a
    string: an entry of the variants list or the default variant. *)
Lemma computed_variant_string (userId featureKey v : string) (vs : list string)
    (rollout : number) (defaultVariant : option string) :
  exists s,
    js_or (js_or (assignVariant userId featureKey (v :: vs) rollout)
                 (of_option defaultVariant)) (JSstr v) = JSstr s /\
    (s ∈ v :: vs \/ defaultVariant = Some s).
Proof.
  destruct (js_or_string
              (js_or (assignVariant userId featureKey (v :: vs) rollout)
                     (of_option defaultVariant)) v)
    as (t & Ht & [Hinner| ->]).
  - intros name. unfold js_or.
    destruct (truthy (assignVariant _ _ _ _));
      [apply assignVariant_not_inherited | destruct defaultVariant; discriminate].
  - exists t. split; [exact Ht|].
    unfold js_or in Hinner at 1.
    destruct (truthy (assignVariant _ _ _ _)).
    + left. eapply assignVariant_elem, Hinner.
    + right. destruct defaultVariant; simpl in Hinner; [congruence | discriminate].
  - exists v. split; [exact Ht|]. left. left.
Qed.

(** X6.  When checkFeature answers enabled for a definition with a
    non-empty variants list, the variant of the result is a string, namely
    the persisted one, an entry of variants or defaultVariant, except when
    nothing is persisted under the key and the key is the name of a member
    of Object.prototype: then the variant is that inherited member.  For a
    definition without variants the result carries no variant. *)
Theorem checkFeature_variant_is_known (config : FeatureFlagsConfig)
    (userContext : UserContext) (featureKey : string)
    (featureDef : FeatureDefinition) :
  features config !! featureKey = Some featureDef ->
  enabled (checkFeature config userContext featureKey) = true ->
  match def_variants featureDef with
  | Some ((_ :: _) as variants) =>
      match ctx_variants userContext !! featureKey, onPrototype featureKey with
      | None, true =>
          variant (checkFeature config userContext featureKey)
          = JSinherited featureKey
      | _, _ =>
          exists s, variant (checkFeature config userContext featureKey) = JSstr s /\
                    (ctx_variants userContext !! featureKey = Some s \/
                     s ∈ variants \/
                     def_defaultVariant featureDef = Some s)
      end
  | Some [] | None =>
      variant (checkFeature config userContext featureKey) = JSundefined
  end.
Proof.
  intros Hdef Hen.
  assert (Hnone : def_variants featureDef = Some [] \/ def_variants featureDef = None ->
                  variant (checkFeature config userContext featureKey) = JSundefined).
  { intros Hvs. revert Hen. unfold checkFeature.
    rewrite (getFeatureConfig_own _ _ _ Hdef).
    destruct (negb (def_enabled featureDef)); [discriminate|].
    destruct (lacksRequiredGroup featureDef userContext); [discriminate|].
    cbv zeta. destruct (negb (isInRollout _ _ _)); [discriminate|].
    destruct Hvs as [-> | ->]; reflexivity. }
  destruct (def_variants featureDef) as [[|v vs]|] eqn:Hvs; [auto| |auto].
  rewrite (checkFeature_resolves config userContext featureKey featureDef
             v vs Hdef Hvs Hen). simpl variant. unfold resolveVariant, readProp.
  change (of_option (nth_error (v :: vs) 0)) with (JSstr v).
  destruct (computed_variant_string (userId userContext) featureKey v vs
              (rolloutOf featureDef) (def_defaultVariant featureDef))
    as (s & Hs & Hor).
  destruct (ctx_variants userContext !! featureKey) as [p|]; simpl.
  - destruct (String.eqb p ""); simpl.
    + exists s. tauto.
    + exists p. auto.
  - destruct (onPrototype featureKey); simpl; [reflexivity|].
    exists s. tauto.
Qed.

Lemma checkFeature_enabled_iff_witness :
  enabled (checkFeature testConfig (user "u1" ["beta"]) "promo") = true /\
  exists featureDef,
    features testConfig !! "promo" = Some featureDef /\
    def_enabled featureDef = true /\
    (forall userGroups, def_userGroups featureDef = Some userGroups ->
       userGroups <> [] ->
       exists group, group ∈ userGroups /\ group ∈ groups (user "u1" ["beta"])) /\
    isInRollout (userId (user "u1" ["beta"])) "promo" (rolloutOf featureDef) = true.
Proof.
  assert (H : enabled (checkFeature testConfig (user "u1" ["beta"]) "promo") = true)
    by (vm_compute; reflexivity).
  split; [exact H|].
  exact (proj1 (proj1 (checkFeature_enabled_iff testConfig (user "u1" ["beta"]) "promo")) H).
Defined.

Lemma checkFeature_variant_is_known_witness :
  features testConfig !! "ab-test" = Some abTest /\
  enabled (checkFeature testConfig (user "user-1" []) "ab-test") = true /\
  exists s, variant (checkFeature testConfig (user "user-1" []) "ab-test") = JSstr s /\
            (ctx_variants (user "user-1" []) !! "ab-test" = Some s \/
             s ∈ ["control"; "variant-a"; "variant-b"] \/
             def_defaultVariant abTest = Some s).
Proof.
  split; [vm_compute; reflexivity|]. split; [vm_compute; reflexivity|].
  exact (checkFeature_variant_is_known testConfig (user "user-1" []) "ab-test" abTest
           ltac:(vm_compute; reflexivity) ltac:(vm_compute; reflexivity)).
Defined.

(** X7.  The result of checkFeatures has an entry for each requested key
    other than __proto__ and for no other key; the assignment under the key
    __proto__ replaces the prototype of the result and creates no entry.
    The result, prototype included, depends only on the set of requested
    keys: order and repetitions do not matter. *)
Theorem checkFeatures_keys (config : FeatureFlagsConfig) (userContext : UserContext)
    (featureKeys : list string) :
  (forall key, is_Some (checkFeatures config userContext featureKeys !! key)
               <-> key ∈ featureKeys /\ key <> "__proto__") /\
  ("__proto__" ∈ featureKeys ->
   (checkFeaturesObject config userContext featureKeys).2
   = Some (checkFeaturesEntry config userContext "__proto__")) /\
  (forall otherKeys,
      (forall key, key ∈ featureKeys <-> key ∈ otherKeys) ->
      checkFeaturesObject config userContext otherKeys
      = checkFeaturesObject config userContext featureKeys).
Proof.
  split_and!.
  - intros key. unfold checkFeatures, checkFeaturesObject.
    rewrite fold_insert_lookup. simpl. rewrite lookup_empty.
    destruct (decide (key ∈ featureKeys /\ key <> "__proto__")) as [Hin|Hnin].
    + split; [intros _; exact Hin | intros _; eexists; reflexivity].
    + split; [intros [x Hx]; discriminate | intros Hin; contradiction].
  - intros Hin. unfold checkFeaturesObject. rewrite fold_assign_prototype.
    rewrite decide_True by exact Hin. reflexivity.
  - intros otherKeys Hsame. unfold checkFeaturesObject.
    apply injective_projections.
    + apply map_eq. intros key. rewrite !fold_insert_lookup.
      destruct (decide (key ∈ otherKeys /\ key <> "__proto__")) as [Ho|Ho],
               (decide (key ∈ featureKeys /\ key <> "__proto__")) as [Hf|Hf];
        try reflexivity.
      * destruct Ho as [Ho Hne]. apply Hsame in Ho. tauto.
      * destruct Hf as [Hf Hne]. apply Hsame in Hf. tauto.
    + rewrite !fold_assign_prototype.
      destruct (decide ("__proto__" ∈ otherKeys)) as [Ho|Ho],
               (decide ("__proto__" ∈ featureKeys)) as [Hf|Hf]; try reflexivity.
      * apply Hsame in Ho. contradiction.
      * apply Hsame in Hf. contradiction.
Qed.

Lemma checkFeatures_keys_witness :
  (forall key, key ∈ ["promo"; "ab-test"] <-> key ∈ ["ab-test"; "promo"; "ab-test"]) /\
  checkFeaturesObject testConfig (user "u1" []) ["ab-test"; "promo"; "ab-test"]
  = checkFeaturesObject testConfig (user "u1" []) ["promo"; "ab-test"].
Proof.
  assert (H : forall key : string,
             key ∈ ["promo"; "ab-test"] <-> key ∈ ["ab-test"; "promo"; "ab-test"]).
  { intros key. rewrite !elem_of_cons, !elem_of_nil. tauto. }
  split; [exact H|].
  exact (proj2 (proj2 (checkFeatures_keys testConfig (user "u1" []) ["promo"; "ab-test"]))
           ["ab-test"; "promo"; "ab-test"] H).
Defined.

(** X8.  For every requested key other than __proto__ the batch query has
    an entry that agrees with the single query on the enabled flag.  The
    entry agrees on the variant as well when the result is not enabled, when
    the definition has a non-empty variants list and a non-empty variant is
    persisted for the key, and when the definition has no variants, nothing
    is persisted and the key is not the name of a member of
    Object.prototype. *)
Theorem checkFeatures_agrees_with_checkFeature (config : FeatureFlagsConfig)
    (userContext : UserContext) (featureKeys : list string) (key : string) :
  key ∈ featureKeys ->
  key <> "__proto__" ->
  exists entry,
    checkFeatures config userContext featureKeys !! key = Some entry /\
    enabled entry = enabled (checkFeature config userContext key) /\
    (enabled entry = false ->
     variant entry = variant (checkFeature config userContext key)) /\
    (forall featureDef first rest persisted,
        features config !! key = Some featureDef ->
        def_variants featureDef = Some (first :: rest) ->
        ctx_variants userContext !! key = Some persisted ->
        persisted <> "" ->
        variant entry = variant (checkFeature config userContext key)) /\
    (forall featureDef,
        features config !! key = Some featureDef ->
        def_variants featureDef = None \/ def_variants featureDef = Some [] ->
        ctx_variants userContext !! key = None ->
        onPrototype key = false ->
        variant entry = variant (checkFeature config userContext key)).
Proof.
  intros Hin Hkey. exists (checkFeaturesEntry config userContext key).
  split; [apply checkFeatures_lookup; assumption|].
  split; [apply checkFeaturesEntry_enabled|].
  assert (Hoff : enabled (checkFeaturesEntry config userContext key) = false ->
                 variant (checkFeaturesEntry config userContext key)
                 = variant (checkFeature config userContext key)).
  { unfold checkFeaturesEntry, checkFeature.
    destruct (getFeatureConfig config key) as [def|]; [|reflexivity].
    destruct (negb (def_enabled def)); [reflexivity|].
    destruct (lacksRequiredGroup def userContext); [reflexivity|].
    cbv zeta. destruct (negb (isInRollout _ _ _)); [reflexivity|]. discriminate. }
  split; [exact Hoff|].
  destruct (enabled (checkFeaturesEntry config userContext key)) eqn:Hen.
  2:{ split; intros; apply Hoff; reflexivity. }
  rewrite (checkFeaturesEntry_variant _ _ _ Hen).
  rewrite checkFeaturesEntry_enabled in Hen.
  unfold readProp. split.
  - intros featureDef first rest persisted Hdef Hvs Hp Hne.
    rewrite (checkFeature_resolves _ _ _ _ _ _ Hdef Hvs Hen). simpl variant.
    unfold resolveVariant, readProp. rewrite Hp. simpl.
    destruct (String.eqb persisted "") eqn:Heq; [|reflexivity].
    apply String.eqb_eq in Heq. contradiction.
  - intros featureDef Hdef Hvs Hp Hproto. rewrite Hp, Hproto.
    revert Hen. unfold checkFeature. rewrite (getFeatureConfig_own _ _ _ Hdef).
    destruct (negb (def_enabled featureDef)); [discriminate|].
    destruct (lacksRequiredGroup featureDef userContext); [discriminate|].
    cbv zeta. destruct (negb (isInRollout _ _ _)); [discriminate|].
    destruct Hvs as [-> | ->]; reflexivity.
Qed.

Lemma checkFeatures_agrees_with_checkFeature_witness :
  "ab-test" ∈ ["promo"; "ab-test"] /\
  "ab-test" <> "__proto__" /\
  exists entry,
    checkFeatures testConfig userWithVariantA ["promo"; "ab-test"] !! "ab-test"
    = Some entry /\
    enabled entry = enabled (checkFeature testConfig userWithVariantA "ab-test") /\
    variant entry = variant (checkFeature testConfig userWithVariantA "ab-test").
Proof.
  assert (Hin : "ab-test" ∈ ["promo"; "ab-test"]) by (right; left).
  assert (Hkey : "ab-test" <> "__proto__") by discriminate.
  split; [exact Hin|]. split; [exact Hkey|].
  destruct (checkFeatures_agrees_with_checkFeature testConfig userWithVariantA
              ["promo"; "ab-test"] "ab-test" Hin Hkey)
    as (entry & Hlook & Hen & _ & Hvar & _).
  exists entry. split; [exact Hlook|]. split; [exact Hen|].
  apply (Hvar abTest "control" ["variant-a"; "variant-b"] "variant-a");
    [vm_compute; reflexivity | reflexivity | vm_compute; reflexivity | discriminate].
Defined.

(** ** userContext.ts and the commands *)

Lemma getUserContext_Some (cookies : UserCtx.Cookies) (generated : string)
    (context : UserContext) :
  UserCtx.getUserContext cookies generated = Some context ->
  UserCtx.parseOr (UserCtx.canary_groups cookies) [] = Some (groups context) /\
  UserCtx.parseOr (UserCtx.canary_variants cookies) ∅ = Some (ctx_variants context) /\
  userId context
  = match UserCtx.storedUserId cookies with Some s => s | None => generated end.
Proof.
  unfold UserCtx.getUserContext.
  destruct (UserCtx.parseOr (UserCtx.canary_groups cookies) []) as [gs|]; [|discriminate].
  destruct (UserCtx.parseOr (UserCtx.canary_variants cookies) ∅) as [vs|]; [|discriminate].
  intros [= <-]. auto.
Qed.

(** Reading back what [setUserContext] wrote. *)
Lemma getUserContext_setUserContext (cookies : UserCtx.Cookies)
    (context : UserContext) (generated : string) :
  userId context <> "" ->
  UserCtx.getUserContext (UserCtx.setUserContext cookies context) generated
  = Some context.
Proof.
  intros Hid. unfold UserCtx.getUserContext, UserCtx.setUserContext,
    UserCtx.storedUserId. simpl.
  destruct (String.eqb (userId context) "") eqn:Heq.
  - apply String.eqb_eq in Heq. contradiction.
  - destruct context; reflexivity.
Qed.

(** X9.  The query checkFeature throws when the groups cookie or the
    variants cookie of the request is not JSON, whatever the config and the
    feature key: getUserContext parses both cookies before the feature is
    looked up, so the query throws for a key that is not configured too. *)
Theorem checkFeatureQuery_fails_on_bad_cookie (config : FeatureFlagsConfig)
    (cookies : UserCtx.Cookies) (generated featureKey : string) :
  UserCtx.canary_groups cookies = UserCtx.BadJson \/
  UserCtx.canary_variants cookies = UserCtx.BadJson ->
  Commands.checkFeatureQuery config cookies generated featureKey = None.
Proof.
  unfold Commands.checkFeatureQuery, UserCtx.getUserContext.
  intros [H|H]; rewrite H; simpl; [reflexivity|].
  destruct (UserCtx.parseOr (UserCtx.canary_groups cookies) []); reflexivity.
Qed.

Lemma checkFeatureQuery_fails_on_bad_cookie_witness :
  UserCtx.canary_groups brokenCookies = UserCtx.BadJson /\
  Commands.checkFeatureQuery testConfig brokenCookies "user_1_x" "no-such-feature" = None.
Proof.
  split; [reflexivity|].
  apply (checkFeatureQuery_fails_on_bad_cookie testConfig brokenCookies
           "user_1_x" "no-such-feature").
  left. reflexivity.
Defined.

(** X10.  ensureUserId returns the id that the cookie holds afterwards.  An
    id that is already stored is returned and the cookies stay as they are;
    otherwise the generated id is stored, the other cookies stay as they
    are, and a second call returns the same id without a change. *)
Theorem ensureUserId_persists (cookies : UserCtx.Cookies) (generated : string) :
  generated <> "" ->
  let '(cookies', userId) := UserCtx.ensureUserId cookies generated in
  UserCtx.storedUserId cookies' = Some userId /\
  UserCtx.canary_groups cookies' = UserCtx.canary_groups cookies /\
  UserCtx.canary_variants cookies' = UserCtx.canary_variants cookies /\
  (forall stored, UserCtx.storedUserId cookies = Some stored ->
     userId = stored /\ cookies' = cookies) /\
  (forall again, UserCtx.ensureUserId cookies' again = (cookies', userId)).
Proof.
  intros Hgen. unfold UserCtx.ensureUserId.
  destruct (UserCtx.storedUserId cookies) as [stored|] eqn:Hst.
  - split; [exact Hst|]. split; [reflexivity|]. split; [reflexivity|]. split.
    + intros s [= <-]. split; reflexivity.
    + intros again. rewrite Hst. reflexivity.
  - assert (Hnew : UserCtx.storedUserId
                     {| UserCtx.canary_user_id := Some generated;
                        UserCtx.canary_groups := UserCtx.canary_groups cookies;
                        UserCtx.canary_variants := UserCtx.canary_variants cookies |}
                   = Some generated).
    { unfold UserCtx.storedUserId. simpl.
      destruct (String.eqb generated "") eqn:Heq; [|reflexivity].
      apply String.eqb_eq in Heq. contradiction. }
    split; [exact Hnew|]. split; [reflexivity|]. split; [reflexivity|]. split.
    + intros s Hs. discriminate Hs.
    + intros again. rewrite Hnew. reflexivity.
Qed.

Lemma ensureUserId_persists_witness :
  "user_1_abc" <> "" /\
  let '(cookies', userId) := UserCtx.ensureUserId noCookies "user_1_abc" in
  UserCtx.storedUserId cookies' = Some userId /\
  UserCtx.canary_groups cookies' = UserCtx.canary_groups noCookies /\
  UserCtx.canary_variants cookies' = UserCtx.canary_variants noCookies /\
  (forall stored, UserCtx.storedUserId noCookies = Some stored ->
     userId = stored /\ cookies' = noCookies) /\
  (forall again, UserCtx.ensureUserId cookies' again = (cookies', userId)).
Proof.
  split; [discriminate|].
  apply (ensureUserId_persists noCookies "user_1_abc"). discriminate.
Defined.

(** X11.  When the cookies parse, addUserToGroup returns a context that
    holds the group; its groups are those of the request plus the new one,
    without a repetition if there was none; user id and variants are those
    of the request.  A second call for the same group changes no cookie. *)
Theorem addUserToGroup_adds (cookies : UserCtx.Cookies) (generated group : string)
    (context : UserContext) :
  UserCtx.getUserContext cookies generated = Some context ->
  exists cookies' context',
    UserCtx.addUserToGroup cookies generated group = (cookies', Some context') /\
    UserCtx.isUserInGroup context' group = true /\
    (forall g, g ∈ groups context' <-> g ∈ groups context \/ g = group) /\
    (NoDup (groups context) -> NoDup (groups context')) /\
    userId context' = userId context /\
    ctx_variants context' = ctx_variants context /\
    (forall again, (UserCtx.addUserToGroup cookies' again group).1 = cookies').
Proof.
  intros Hctx. unfold UserCtx.addUserToGroup. rewrite Hctx.
  destruct (includes (groups context) group) eqn:Hinc; simpl.
  - exists cookies, context. apply includes_elem in Hinc as Hin.
    split_and!; auto.
    + intros g. split; [tauto | intros [H| ->]; assumption].
    + intros again. unfold UserCtx.addUserToGroup.
      destruct (UserCtx.getUserContext cookies again) as [c2|] eqn:H2; [|reflexivity].
      apply getUserContext_Some in H2 as (Hg2 & _).
      apply getUserContext_Some in Hctx as (Hg & _).
      rewrite Hg in Hg2. injection Hg2 as Hg2. rewrite <- Hg2, Hinc. reflexivity.
  - eexists _, _. split; [reflexivity|].
    assert (Hnin : group ∉ groups context).
    { intros Hin. apply includes_elem in Hin. congruence. }
    assert (Hinc' : includes (groups context ++ [group]) group = true).
    { apply includes_elem, elem_of_app. right. left. }
    split_and!; simpl; auto.
    + intros g. rewrite elem_of_app, list_elem_of_singleton. tauto.
    + intros Hnd. apply NoDup_app. split_and!; [exact Hnd| |apply NoDup_singleton].
      intros x Hx Hx'. apply list_elem_of_singleton in Hx'. subst. contradiction.
    + intros again. unfold UserCtx.addUserToGroup, UserCtx.getUserContext. simpl.
      rewrite Hinc'. reflexivity.
Qed.

Lemma addUserToGroup_adds_witness :
  UserCtx.getUserContext noCookies "user_1_abc" = Some (user "user_1_abc" []) /\
  exists cookies' context',
    UserCtx.addUserToGroup noCookies "user_1_abc" "beta" = (cookies', Some context') /\
    UserCtx.isUserInGroup context' "beta" = true /\
    (forall g, g ∈ groups context' <-> g ∈ groups (user "user_1_abc" []) \/ g = "beta") /\
    (NoDup (groups (user "user_1_abc" [])) -> NoDup (groups context')) /\
    userId context' = userId (user "user_1_abc" []) /\
    ctx_variants context' = ctx_variants (user "user_1_abc" []) /\
    (forall again, (UserCtx.addUserToGroup cookies' again "beta").1 = cookies').
Proof.
  split; [reflexivity|].
  apply (addUserToGroup_adds noCookies "user_1_abc" "beta" (user "user_1_abc" [])).
  reflexivity.
Defined.

Lemma filter_other_id (group : string) (l : list string) :
  group ∉ l -> filter (fun g => g <> group) l = l.
Proof.
  induction l as [|x l IH]; intros Hnin; [reflexivity|].
  apply not_elem_of_cons in Hnin as [Hne Hnin].
  rewrite filter_cons_True by congruence. rewrite IH by exact Hnin. reflexivity.
Qed.

(** X12.  When the cookies parse, removeUserFromGroup returns a context
    without the group: the other groups stay, in their order; user id and
    variants are those of the request; the cookies are rewritten in every
    case, so a later request reads the returned context back. *)
Theorem removeUserFromGroup_removes (cookies : UserCtx.Cookies)
    (generated group : string) (context : UserContext) :
  UserCtx.getUserContext cookies generated = Some context ->
  exists cookies' context',
    UserCtx.removeUserFromGroup cookies generated group = (cookies', Some context') /\
    UserCtx.isUserInGroup context' group = false /\
    (forall g, g ∈ groups context' <-> g ∈ groups context /\ g <> group) /\
    groups context' `sublist_of` groups context /\
    (group ∉ groups context -> groups context' = groups context) /\
    userId context' = userId context /\
    ctx_variants context' = ctx_variants context /\
    (userId context <> "" ->
     forall later, UserCtx.getUserContext cookies' later = Some context').
Proof.
  intros Hctx. unfold UserCtx.removeUserFromGroup. rewrite Hctx.
  eexists _, _. split; [reflexivity|]. simpl.
  split_and!; auto.
  - unfold UserCtx.isUserInGroup. simpl.
    destruct (includes _ group) eqn:Hinc; [|reflexivity].
    apply includes_elem, list_elem_of_filter in Hinc as [Hne _]. contradiction.
  - intros g. rewrite list_elem_of_filter. tauto.
  - apply sublist_filter.
  - apply filter_other_id.
  - intros Hid later. apply getUserContext_setUserContext. exact Hid.
Qed.

Lemma removeUserFromGroup_removes_witness :
  UserCtx.getUserContext memberCookies "user_9_z" = Some
    {| userId := "user-1"; groups := ["beta"; "internal"];
       ctx_variants := {["ab-test" := "variant-a"]} |} /\
  exists cookies' context',
    UserCtx.removeUserFromGroup memberCookies "user_9_z" "beta"
    = (cookies', Some context') /\
    UserCtx.isUserInGroup context' "beta" = false.
Proof.
  split; [reflexivity|].
  destruct (removeUserFromGroup_removes memberCookies "user_9_z" "beta" _ eq_refl)
    as (cookies' & context' & Heq & Hout & _).
  exists cookies', context'. split; assumption.
Defined.

(** X13.  Round trip: joining a group the user does not hold and leaving it
    again gives back the groups and the variants of the request. *)
Theorem add_then_remove_restores_groups (cookies : UserCtx.Cookies)
    (generated later group : string) (context : UserContext) :
  UserCtx.getUserContext cookies generated = Some context ->
  group ∉ groups context ->
  exists cookies1 context1 cookies2 context2,
    UserCtx.addUserToGroup cookies generated group = (cookies1, Some context1) /\
    UserCtx.removeUserFromGroup cookies1 later group = (cookies2, Some context2) /\
    groups context2 = groups context /\
    ctx_variants context2 = ctx_variants context /\
    UserCtx.canary_groups cookies2 = UserCtx.Json (groups context).
Proof.
  intros Hctx Hnin. unfold UserCtx.addUserToGroup. rewrite Hctx.
  assert (Hinc : includes (groups context) group = false).
  { destruct (includes (groups context) group) eqn:H; [|reflexivity].
    apply includes_elem in H. contradiction. }
  rewrite Hinc. simpl.
  eexists _, _, _, _. split; [reflexivity|].
  unfold UserCtx.removeUserFromGroup, UserCtx.getUserContext. simpl.
  split; [reflexivity|]. simpl.
  assert (Hf : filter (fun g => g <> group) (groups context ++ [group])%list = groups context).
  { rewrite filter_app, filter_other_id by exact Hnin.
    rewrite filter_cons_False by tauto. rewrite filter_nil. apply app_nil_r. }
  rewrite Hf. auto.
Qed.

Lemma add_then_remove_restores_groups_witness :
  UserCtx.getUserContext memberCookies "user_9_z" = Some
    {| userId := "user-1"; groups := ["beta"; "internal"];
       ctx_variants := {["ab-test" := "variant-a"]} |} /\
  ("staff" ∉ ["beta"; "internal"]) /\
  exists cookies1 context1 cookies2 context2,
    UserCtx.addUserToGroup memberCookies "user_9_z" "staff" = (cookies1, Some context1) /\
    UserCtx.removeUserFromGroup cookies1 "user_8_y" "staff" = (cookies2, Some context2) /\
    groups context2 = ["beta"; "internal"] /\
    ctx_variants context2 = {["ab-test" := "variant-a"]} /\
    UserCtx.canary_groups cookies2 = UserCtx.Json ["beta"; "internal"].
Proof.
  assert (Hnin : "staff" ∉ ["beta"; "internal"]).
  { rewrite !elem_of_cons, elem_of_nil. intros [H|[H|[]]]; discriminate H. }
  split; [reflexivity|]. split; [exact Hnin|].
  exact (add_then_remove_restores_groups memberCookies "user_9_z" "user_8_y" "staff"
           _ eq_refl Hnin).
Defined.

Lemma readProp_writeProp_ne (obj : gmap string string) (key value other : string) :
  other <> key ->
  readProp (writeProp obj key value) other = readProp obj other.
Proof.
  intros Hne. unfold readProp, writeProp.
  destruct (obj !! key); [rewrite lookup_insert_ne by congruence; reflexivity|].
  destruct (String.eqb key "__proto__"); [reflexivity|].
  rewrite lookup_insert_ne by congruence. reflexivity.
Qed.

Lemma writeProp_stores (obj : gmap string string) (key value : string) :
  key <> "__proto__" \/ is_Some (obj !! key) ->
  writeProp obj key value !! key = Some value.
Proof.
  intros Hkey. unfold writeProp.
  destruct (obj !! key) as [old|] eqn:Hold; [apply lookup_insert_eq|].
  destruct Hkey as [Hkey|[old Hsome]]; [|discriminate].
  apply String.eqb_neq in Hkey. rewrite Hkey. apply lookup_insert_eq.
Qed.

(** X14.  assignVariant of userContext.ts leaves what getAssignedVariant
    reads for the other features as it was.  When featureKey is not
    __proto__, or the variants object has an own entry under it, the stored
    variant is the one getAssignedVariant reads, and both queries answer
    with it when it is not empty and the feature is enabled for the user and
    has variants, whether or not the stored variant is one of them.  For the
    key __proto__ without an own entry the assignment stores nothing: the
    variants stay as they were and getAssignedVariant reads the prototype
    object. *)
Theorem assigned_variant_is_served (config : FeatureFlagsConfig)
    (cookies : UserCtx.Cookies) (generated featureKey variant : string)
    (context : UserContext) :
  UserCtx.getUserContext cookies generated = Some context ->
  exists cookies' context',
    UserCtx.assignVariant cookies generated featureKey variant
    = (cookies', Some context') /\
    (forall other, other <> featureKey ->
       UserCtx.getAssignedVariant context' other
       = UserCtx.getAssignedVariant context other) /\
    (featureKey <> "__proto__" \/ is_Some (ctx_variants context !! featureKey) ->
     UserCtx.getAssignedVariant context' featureKey = JSstr variant /\
     forall featureDef first rest,
       variant <> "" ->
       features config !! featureKey = Some featureDef ->
       def_variants featureDef = Some (first :: rest) ->
       enabled (checkFeature config context' featureKey) = true ->
       Remote.variant (checkFeature config context' featureKey) = JSstr variant /\
       Remote.variant (checkFeaturesEntry config context' featureKey) = JSstr variant) /\
    (featureKey = "__proto__" ->
     ctx_variants context !! featureKey = None ->
     ctx_variants context' = ctx_variants context /\
     UserCtx.getAssignedVariant context' featureKey = JSinherited "__proto__").
Proof.
  intros Hctx. unfold UserCtx.assignVariant. rewrite Hctx.
  eexists _, _. split; [reflexivity|].
  unfold UserCtx.getAssignedVariant. simpl. split_and!.
  - intros other Hne. apply readProp_writeProp_ne, Hne.
  - intros Hkey.
    set (context' := {| userId := userId context; groups := groups context;
                        ctx_variants :=
                          writeProp (ctx_variants context) featureKey variant |}).
    assert (Hp : ctx_variants context' !! featureKey = Some variant)
      by (apply writeProp_stores, Hkey).
    assert (Hread : readProp (ctx_variants context') featureKey = JSstr variant)
      by (unfold readProp; rewrite Hp; reflexivity).
    split; [exact Hread|].
    intros featureDef first rest Hne Hdef Hvs Hen.
    assert (Hneb : String.eqb variant "" = false).
    { destruct (String.eqb variant "") eqn:H; [|reflexivity].
      apply String.eqb_eq in H. contradiction. }
    split.
    + rewrite (checkFeature_resolves config context' featureKey featureDef first rest
                 Hdef Hvs Hen). simpl. unfold resolveVariant. rewrite Hread. simpl.
      rewrite Hneb. reflexivity.
    + rewrite checkFeaturesEntry_variant.
      * exact Hread.
      * rewrite checkFeaturesEntry_enabled. exact Hen.
  - intros -> Hnone. unfold writeProp, readProp. rewrite Hnone. simpl.
    rewrite Hnone. split; reflexivity.
Qed.

Lemma assigned_variant_is_served_witness :
  UserCtx.getUserContext memberCookies "user_9_z" = Some
    {| userId := "user-1"; groups := ["beta"; "internal"];
       ctx_variants := {["ab-test" := "variant-a"]} |} /\
  exists cookies' context',
    UserCtx.assignVariant memberCookies "user_9_z" "ab-test" "holdout"
    = (cookies', Some context') /\
    UserCtx.getAssignedVariant context' "ab-test" = JSstr "holdout" /\
    Remote.variant (checkFeature testConfig context' "ab-test") = JSstr "holdout".
Proof.
  split; [reflexivity|].
  destruct (assigned_variant_is_served testConfig memberCookies "user_9_z" "ab-test"
              "holdout" _ eq_refl)
    as (cookies' & context' & Heq & _ & Hserved & _).
  exists cookies', context'. split; [exact Heq|].
  destruct Hserved as [Hget Hserved]; [left; discriminate|].
  split; [exact Hget|].
  injection Heq as <- <-.
  apply (Hserved abTest "control" ["variant-a"; "variant-b"]);
    [discriminate | vm_compute; reflexivity | reflexivity | vm_compute; reflexivity].
Defined.

Lemma ensureUserId_stored (cookies : UserCtx.Cookies) (generated : string) :
  generated <> "" ->
  UserCtx.storedUserId (UserCtx.ensureUserId cookies generated).1
  = Some (UserCtx.ensureUserId cookies generated).2.
Proof.
  intros Hgen. unfold UserCtx.ensureUserId.
  destruct (UserCtx.storedUserId cookies) as [stored|] eqn:Hst; simpl; [exact Hst|].
  unfold UserCtx.storedUserId. simpl.
  destruct (String.eqb generated "") eqn:Heq; [|reflexivity].
  apply String.eqb_eq in Heq. contradiction.
Qed.

Lemma removeUserFromGroup_spec (cookies : UserCtx.Cookies)
    (generated group : string) (context : UserContext) :
  UserCtx.getUserContext cookies generated = Some context ->
  exists cookies' context',
    UserCtx.removeUserFromGroup cookies generated group = (cookies', Some context') /\
    (group ∉ groups context') /\
    userId context' = userId context /\
    (userId context <> "" ->
     forall later, UserCtx.getUserContext cookies' later = Some context').
Proof.
  intros Hctx. unfold UserCtx.removeUserFromGroup. rewrite Hctx.
  eexists _, _. split; [reflexivity|]. simpl. split_and!; auto.
  - intros Hin. apply list_elem_of_filter in Hin as [Hne _]. contradiction.
  - intros Hid later. apply getUserContext_setUserContext. exact Hid.
Qed.

(** X15.  After the command joinGroup succeeds, the user id is stored, so
    every later request reads the same user context, and that context holds
    the group: a feature that is enabled and lists the group among its
    userGroups is then decided by the rollout alone. *)
Theorem joinGroup_unlocks (config : FeatureFlagsConfig) (cookies : UserCtx.Cookies)
    (generated1 generated2 group : string)
    (cookies' : UserCtx.Cookies) (joined : list string) :
  generated1 <> "" ->
  Commands.joinGroup cookies generated1 generated2 group = (cookies', Some joined) ->
  exists context,
    (forall later, UserCtx.getUserContext cookies' later = Some context) /\
    groups context = joined /\
    (group ∈ joined) /\
    (forall featureKey featureDef userGroups,
        features config !! featureKey = Some featureDef ->
        def_enabled featureDef = true ->
        def_userGroups featureDef = Some userGroups ->
        group ∈ userGroups ->
        enabled (checkFeature config context featureKey)
        = isInRollout (userId context) featureKey (rolloutOf featureDef)).
Proof.
  intros Hgen. unfold Commands.joinGroup.
  pose proof (ensureUserId_stored cookies generated1 Hgen) as Hens.
  destruct (UserCtx.ensureUserId cookies generated1) as [cookies1 id]. simpl in Hens.
  destruct (UserCtx.addUserToGroup cookies1 generated2 group) as [cookies2 [context|]] eqn:Hadd;
    [|discriminate].
  intros [= <- <-].
  exists context.
  assert (Hread : forall later, UserCtx.getUserContext cookies2 later = Some context).
  { intros later. unfold UserCtx.addUserToGroup in Hadd.
    destruct (UserCtx.getUserContext cookies1 generated2) as [c1|] eqn:Hc1; [|discriminate].
    apply getUserContext_Some in Hc1 as Hparts.
    destruct Hparts as (Hg & Hv & Hid). rewrite Hens in Hid.
    destruct (negb (includes (groups c1) group)); injection Hadd as <- <-.
    - apply getUserContext_setUserContext. simpl. rewrite Hid.
      intros ->. unfold UserCtx.storedUserId in Hens.
      destruct (UserCtx.canary_user_id cookies1) as [s|]; [|discriminate].
      destruct (String.eqb s "") eqn:Hs; [discriminate|].
      injection Hens as ->. discriminate Hs.
    - unfold UserCtx.getUserContext. rewrite Hens, Hg, Hv, <- Hid.
      destruct c1; reflexivity. }
  assert (Hmember : group ∈ groups context).
  { unfold UserCtx.addUserToGroup in Hadd.
    destruct (UserCtx.getUserContext cookies1 generated2) as [c1|]; [|discriminate].
    destruct (includes (groups c1) group) eqn:Hinc; simpl in Hadd;
      injection Hadd as _ <-.
    - apply includes_elem, Hinc.
    - simpl. apply elem_of_app. right. left. }
  split_and!; auto.
  intros featureKey featureDef userGroups Hdef Hon Hgs Hin.
  unfold checkFeature. rewrite (getFeatureConfig_own _ _ _ Hdef), Hon. simpl negb.
  assert (Hlack : lacksRequiredGroup featureDef context = false).
  { unfold lacksRequiredGroup. rewrite Hgs.
    destruct userGroups as [|g gs]; [reflexivity|].
    apply negb_false_iff, hasRequiredGroup_elem. eauto. }
  rewrite Hlack. cbv zeta.
  destruct (isInRollout _ _ _); simpl; [|reflexivity].
  destruct (def_variants featureDef) as [[|v vs]|]; reflexivity.
Qed.

Lemma joinGroup_unlocks_witness :
  "user_1_abc" <> "" /\
  Commands.joinGroup noCookies "user_1_abc" "user_2_xyz" "beta"
  = ({| UserCtx.canary_user_id := Some "user_1_abc";
        UserCtx.canary_groups := UserCtx.Json ["beta"];
        UserCtx.canary_variants := UserCtx.Json ∅ |}, Some ["beta"]) /\
  exists context,
    groups context = ["beta"] /\
    enabled (checkFeature testConfig context "promo")
    = isInRollout (userId context) "promo" (rolloutOf promo).
Proof.
  assert (Hne : "user_1_abc" <> "") by discriminate.
  split; [exact Hne|]. split; [reflexivity|].
  destruct (joinGroup_unlocks testConfig noCookies "user_1_abc" "user_2_xyz" "beta"
              _ _ Hne eq_refl) as (context & _ & Hgs & _ & Hunlock).
  exists context. split; [exact Hgs|].
  apply (Hunlock "promo" promo ["beta"]);
    [vm_compute; reflexivity | reflexivity | reflexivity | left].
Defined.

(** X16.  After the command leaveGroup succeeds, every later request reads a
    user context without the group: a feature that is enabled and requires
    exactly this group answers "User not in required group". *)
Theorem leaveGroup_locks (config : FeatureFlagsConfig) (cookies : UserCtx.Cookies)
    (generated1 generated2 group : string)
    (cookies' : UserCtx.Cookies) (remaining : list string) :
  generated1 <> "" ->
  Commands.leaveGroup cookies generated1 generated2 group = (cookies', Some remaining) ->
  exists context,
    (forall later, UserCtx.getUserContext cookies' later = Some context) /\
    groups context = remaining /\
    (group ∉ remaining) /\
    (forall featureKey featureDef,
        features config !! featureKey = Some featureDef ->
        def_enabled featureDef = true ->
        def_userGroups featureDef = Some [group] ->
        checkFeature config context featureKey
        = {| enabled := false; variant := JSundefined;
             reason := "User not in required group" |}).
Proof.
  intros Hgen. unfold Commands.leaveGroup.
  pose proof (ensureUserId_stored cookies generated1 Hgen) as Hens.
  destruct (UserCtx.ensureUserId cookies generated1) as [cookies1 id]. simpl in Hens.
  destruct (UserCtx.getUserContext cookies1 generated2) as [c1|] eqn:Hc1.
  2:{ unfold UserCtx.removeUserFromGroup. rewrite Hc1. discriminate. }
  destruct (removeUserFromGroup_spec cookies1 generated2 group c1 Hc1)
    as (cookies2 & context & Hrm & Hout & Hid & Hread).
  rewrite Hrm. intros [= <- <-]. exists context.
  assert (Hidne : userId c1 <> "").
  { apply getUserContext_Some in Hc1 as (_ & _ & Hu). rewrite Hens in Hu. rewrite Hu.
    intros ->. unfold UserCtx.storedUserId in Hens.
    destruct (UserCtx.canary_user_id cookies1) as [s|]; [|discriminate].
    destruct (String.eqb s "") eqn:Hs; [discriminate|].
    injection Hens as ->. discriminate Hs. }
  split_and!; auto.
  intros featureKey featureDef Hdef Hon Hgs.
  apply (checkFeature_lacks_group config context featureKey featureDef
           (getFeatureConfig_own _ _ _ Hdef) Hon).
  unfold lacksRequiredGroup. rewrite Hgs. apply negb_true_iff.
  destruct (hasRequiredGroup [group] context) eqn:Hhas; [|reflexivity].
  apply hasRequiredGroup_elem in Hhas as (g & Hg & Hin).
  apply list_elem_of_singleton in Hg as ->. contradiction.
Qed.

Lemma leaveGroup_locks_witness :
  "user_9_z" <> "" /\
  (Commands.leaveGroup memberCookies "user_9_z" "user_8_y" "internal").2
  = Some ["beta"] /\
  exists context,
    groups context = ["beta"] /\
    "internal" ∉ ["beta"].
Proof.
  assert (Hne : "user_9_z" <> "") by discriminate.
  split; [exact Hne|]. split; [reflexivity|].
  destruct (leaveGroup_locks testConfig memberCookies "user_9_z" "user_8_y" "internal"
              _ _ Hne eq_refl) as (context & _ & Hgs & Hnin & _).
  exists context. split; assumption.
Defined.

(** X17.  When the groups cookie or the variants cookie is not JSON, the
    three writers of userContext.ts throw without touching a cookie, and the
    commands joinGroup and leaveGroup throw after ensureUserId has already
    run: the user id cookie is set, the other cookies are as before. *)
Theorem bad_cookie_stops_writers (cookies : UserCtx.Cookies)
    (generated1 generated2 group featureKey variant : string) :
  UserCtx.canary_groups cookies = UserCtx.BadJson \/
  UserCtx.canary_variants cookies = UserCtx.BadJson ->
  UserCtx.addUserToGroup cookies generated2 group = (cookies, None) /\
  UserCtx.removeUserFromGroup cookies generated2 group = (cookies, None) /\
  UserCtx.assignVariant cookies generated2 featureKey variant = (cookies, None) /\
  Commands.joinGroup cookies generated1 generated2 group
  = ((UserCtx.ensureUserId cookies generated1).1, None) /\
  Commands.leaveGroup cookies generated1 generated2 group
  = ((UserCtx.ensureUserId cookies generated1).1, None).
Proof.
  intros Hbad.
  assert (Hfail : forall c g,
             UserCtx.canary_groups c = UserCtx.canary_groups cookies ->
             UserCtx.canary_variants c = UserCtx.canary_variants cookies ->
             UserCtx.getUserContext c g = None).
  { intros c g Hg Hv. unfold UserCtx.getUserContext. rewrite Hg, Hv.
    destruct Hbad as [-> | ->]; simpl; [reflexivity|].
    destruct (UserCtx.parseOr (UserCtx.canary_groups cookies) []); reflexivity. }
  unfold Commands.joinGroup, Commands.leaveGroup, UserCtx.addUserToGroup,
    UserCtx.removeUserFromGroup, UserCtx.assignVariant.
  rewrite (Hfail cookies generated2) by reflexivity.
  assert (Hens : UserCtx.getUserContext (UserCtx.ensureUserId cookies generated1).1
                   generated2 = None).
  { apply Hfail; unfold UserCtx.ensureUserId;
      destruct (UserCtx.storedUserId cookies); reflexivity. }
  destruct (UserCtx.ensureUserId cookies generated1) as [cookies1 id]. simpl in Hens.
  rewrite Hens. auto.
Qed.

Lemma bad_cookie_stops_writers_witness :
  UserCtx.canary_groups brokenCookies = UserCtx.BadJson /\
  Commands.joinGroup brokenCookies "user_1_abc" "user_2_xyz" "beta"
  = ({| UserCtx.canary_user_id := Some "user_1_abc";
        UserCtx.canary_groups := UserCtx.BadJson;
        UserCtx.canary_variants := UserCtx.NoCookie |}, None).
Proof.
  split; [reflexivity|].
  apply (bad_cookie_stops_writers brokenCookies "user_1_abc" "user_2_xyz" "beta"
           "ab-test" "control").
  left. reflexivity.
Defined.

(** ** hooks/featureRouting.ts *)

Lemma isFeatureEnabled_enabled (config : FeatureFlagsConfig)
    (userContext : UserContext) (featureKey : string) :
  Routing.isFeatureEnabled config userContext featureKey
  = enabled (checkFeature config userContext featureKey).
Proof.
  unfold Routing.isFeatureEnabled, checkFeature.
  destruct (getFeatureConfig config featureKey) as [featureDef|]; [|reflexivity].
  destruct (negb (def_enabled featureDef)); [reflexivity|].
  destruct (lacksRequiredGroup featureDef userContext); [reflexivity|].
  cbv zeta. destruct (negb (isInRollout _ _ _)); [reflexivity|].
  destruct (def_variants featureDef) as [[|v vs]|]; reflexivity.
Qed.

(** X18.  The evaluator of the routing hook and the query checkFeature
    agree: isFeatureEnabled is the enabled flag of checkFeature, for every
    config, user and key. *)
Theorem isFeatureEnabled_agrees_with_checkFeature (config : FeatureFlagsConfig)
    (userContext : UserContext) (featureKey : string) :
  Routing.isFeatureEnabled config userContext featureKey
  = enabled (checkFeature config userContext featureKey).
Proof. apply isFeatureEnabled_enabled. Qed.

(** X19.  A request for a route that requires a group the user does not
    hold is always redirected, whatever the feature flags and the other
    groups of the user say: to the route stored under the group's name when
    there is one, to "/" otherwise. *)
Theorem missing_group_is_redirected (config : Loader.SiteConfig)
    (userContext : UserContext) (currentPath requiresGroup : string)
    (routeDef : Loader.RouteDefinition) :
  Loader.getRouteConfig config !! currentPath = Some routeDef ->
  Loader.prop routeDef "requiresGroup" = Some requiresGroup ->
  requiresGroup ∉ groups userContext ->
  Routing.handleFeatureRouting config userContext currentPath
  = Routing.Redirect 307
      (match Loader.prop routeDef requiresGroup with
       | Some groupRedirect => groupRedirect
       | None => "/"
       end).
Proof.
  intros Hroute Hreq Hnin. unfold Routing.handleFeatureRouting. rewrite Hroute.
  unfold Routing.requiresGroupStep. rewrite Hreq.
  assert (Hinc : UserCtx.isUserInGroup userContext requiresGroup = false).
  { unfold UserCtx.isUserInGroup.
    destruct (includes (groups userContext) requiresGroup) eqn:H; [|reflexivity].
    apply includes_elem in H. contradiction. }
  rewrite Hinc. simpl.
  destruct (Loader.prop routeDef requiresGroup); reflexivity.
Qed.

Lemma missing_group_is_redirected_witness :
  Loader.getRouteConfig siteConfig !! "/lab" = Some labRoute /\
  Loader.prop labRoute "requiresGroup" = Some "internal" /\
  ("internal" ∉ groups (user "user-1" ["beta"])) /\
  Routing.handleFeatureRouting siteConfig (user "user-1" ["beta"]) "/lab"
  = Routing.Redirect 307 "/".
Proof.
  assert (Hnin : "internal" ∉ groups (user "user-1" ["beta"])).
  { simpl. rewrite elem_of_cons, elem_of_nil. intros [H|[]]. discriminate H. }
  split; [vm_compute; reflexivity|]. split; [vm_compute; reflexivity|].
  split; [exact Hnin|].
  exact (missing_group_is_redirected siteConfig (user "user-1" ["beta"]) "/lab"
           "internal" labRoute
           ltac:(vm_compute; reflexivity) ltac:(vm_compute; reflexivity) Hnin).
Defined.

Lemma groupRoutesStep_inv (routeDef : Loader.RouteDefinition) (currentPath : string)
    (gs : list string) (outcome : Routing.Outcome) :
  Routing.groupRoutesStep routeDef gs currentPath = Some outcome ->
  exists group location,
    outcome = Routing.Redirect 307 location /\
    group ∈ gs /\
    Routing.reservedKey group = false /\
    Loader.prop routeDef group = Some location /\
    location <> currentPath.
Proof.
  induction gs as [|g gs IH]; simpl; [discriminate|].
  assert (Hrest : Routing.groupRoutesStep routeDef gs currentPath = Some outcome ->
                  exists group location,
                    outcome = Routing.Redirect 307 location /\
                    group ∈ g :: gs /\
                    Routing.reservedKey group = false /\
                    Loader.prop routeDef group = Some location /\
                    location <> currentPath).
  { intros H. destruct (IH H) as (group & loc & H1 & H2 & H3).
    exists group, loc. split; [exact H1|]. split; [right; exact H2 | exact H3]. }
  destruct (Loader.prop routeDef g) as [groupRoute|] eqn:Hp; [|exact Hrest].
  destruct (negb (String.eqb groupRoute currentPath)) eqn:Hne;
    destruct (negb (Routing.reservedKey g)) eqn:Hres; simpl; try exact Hrest.
  intros [= <-]. exists g, groupRoute.
  apply negb_true_iff in Hne, Hres. apply String.eqb_neq in Hne.
  split_and!; auto. left.
Qed.

(** X20.  The hook redirects with status 307 only, and only on a path that
    has a route definition.  A user who holds the group the route requires,
    or who asks for a route that requires none, is never redirected to the
    path of the request itself. *)
Theorem no_redirect_to_self (config : Loader.SiteConfig) (userContext : UserContext)
    (currentPath : string) (status : Z) (location : string) :
  Routing.handleFeatureRouting config userContext currentPath
  = Routing.Redirect status location ->
  status = 307 /\
  exists routeDef,
    Loader.getRouteConfig config !! currentPath = Some routeDef /\
    ((forall requiresGroup,
         Loader.prop routeDef "requiresGroup" = Some requiresGroup ->
         requiresGroup ∈ groups userContext) ->
     location <> currentPath).
Proof.
  unfold Routing.handleFeatureRouting.
  destruct (Loader.getRouteConfig config !! currentPath) as [routeDef|]; [|discriminate].
  intros H.
  assert (Hgoal : status = 307 /\
            ((forall requiresGroup,
                 Loader.prop routeDef "requiresGroup" = Some requiresGroup ->
                 requiresGroup ∈ groups userContext) ->
             location <> currentPath)).
  { destruct (Routing.requiresGroupStep routeDef userContext currentPath)
      as [o1|] eqn:H1.
    { subst o1. unfold Routing.requiresGroupStep in H1.
      destruct (Loader.prop routeDef "requiresGroup") as [rg|]; [|discriminate].
      destruct (UserCtx.isUserInGroup userContext rg) eqn:Hin; simpl in H1.
      - destruct (Loader.prop routeDef rg) as [groupRoute|]; [|discriminate].
        destruct (negb (String.eqb groupRoute currentPath)) eqn:Hne; [|discriminate].
        injection H1 as <- <-. split; [reflexivity|]. intros _.
        apply negb_true_iff, String.eqb_neq in Hne. exact Hne.
      - assert (Hs : status = 307)
          by (destruct (Loader.prop routeDef rg); injection H1 as <- _; reflexivity).
        split; [exact Hs|]. intros Hall. specialize (Hall rg eq_refl).
        apply includes_elem in Hall. unfold UserCtx.isUserInGroup in Hin. congruence. }
    destruct (Routing.featureStep config routeDef userContext currentPath)
      as [o2|] eqn:H2.
    { subst o2. unfold Routing.featureStep in H2.
      destruct (Loader.prop routeDef "feature") as [feature|]; [|discriminate].
      destruct (Routing.isFeatureEnabled _ _ _).
      - destruct (Loader.prop routeDef "enabled") as [route|]; [|discriminate].
        destruct (negb (String.eqb route currentPath)) eqn:Hne; [|discriminate].
        injection H2 as <- <-. split; [reflexivity|]. intros _.
        apply negb_true_iff, String.eqb_neq in Hne. exact Hne.
      - destruct (Loader.prop routeDef "disabled") as [route|]; [|discriminate].
        destruct (negb (String.eqb route currentPath)) eqn:Hne; [|discriminate].
        injection H2 as <- <-. split; [reflexivity|]. intros _.
        apply negb_true_iff, String.eqb_neq in Hne. exact Hne. }
    destruct (Routing.groupRoutesStep routeDef (groups userContext) currentPath)
      as [o3|] eqn:H3; [|discriminate].
    subst o3. apply groupRoutesStep_inv in H3 as (g & loc & Heq & _ & _ & _ & Hne).
    injection Heq as -> ->. split; [reflexivity|]. intros _. exact Hne. }
  destruct Hgoal as [Hs Hloc]. split; [exact Hs|]. exists routeDef. auto.
Qed.

Lemma no_redirect_to_self_witness :
  Routing.handleFeatureRouting siteConfig (user "user-1" []) "/dashboard"
  = Routing.Redirect 307 "/dashboard-v2" /\
  "/dashboard-v2" <> "/dashboard".
Proof.
  assert (H : Routing.handleFeatureRouting siteConfig (user "user-1" []) "/dashboard"
              = Routing.Redirect 307 "/dashboard-v2") by (vm_compute; reflexivity).
  split; [exact H|].
  destruct (no_redirect_to_self siteConfig (user "user-1" []) "/dashboard" 307
              "/dashboard-v2" H) as (_ & routeDef & Hroute & Hloc).
  apply Hloc. intros requiresGroup Hreq.
  assert (Hrd : routeDef = dashboardRoute).
  { assert (Hl : Loader.getRouteConfig siteConfig !! "/dashboard"
                 = Some dashboardRoute) by (vm_compute; reflexivity).
    rewrite Hl in Hroute. injection Hroute as <-. reflexivity. }
  subst routeDef. vm_compute in Hreq. discriminate Hreq.
Defined.

(** Without the group the condition of X20 fails and the redirect can point
    at the request's own path. *)
Example redirect_loop_for_missing_group :
  Routing.handleFeatureRouting membersConfig (user "user-1" []) "/members"
  = Routing.Redirect 307 "/members".
Proof. vm_compute; reflexivity. Qed.

(** X21.  On a route that requires no group and names a feature, the hook
    follows the feature: when the feature is enabled for the user and the
    route has an enabled target other than the request's path, the request
    is redirected there; when the feature is not enabled and the route has
    a disabled target other than the request's path, it is redirected
    there. *)
Theorem feature_route_follows_flag (config : Loader.SiteConfig)
    (userContext : UserContext) (currentPath feature target : string)
    (routeDef : Loader.RouteDefinition) :
  Loader.getRouteConfig config !! currentPath = Some routeDef ->
  Loader.prop routeDef "requiresGroup" = None ->
  Loader.prop routeDef "feature" = Some feature ->
  target <> currentPath ->
  (enabled (checkFeature (Loader.flags config) userContext feature) = true ->
   Loader.prop routeDef "enabled" = Some target ->
   Routing.handleFeatureRouting config userContext currentPath
   = Routing.Redirect 307 target) /\
  (enabled (checkFeature (Loader.flags config) userContext feature) = false ->
   Loader.prop routeDef "disabled" = Some target ->
   Routing.handleFeatureRouting config userContext currentPath
   = Routing.Redirect 307 target).
Proof.
  intros Hroute Hreq Hfeat Hne.
  assert (Hneb : negb (String.eqb target currentPath) = true).
  { apply negb_true_iff, String.eqb_neq, Hne. }
  unfold Routing.handleFeatureRouting, Routing.requiresGroupStep, Routing.featureStep.
  rewrite Hroute, Hreq, Hfeat, isFeatureEnabled_enabled.
  split; intros Hen Htarget; rewrite Hen, Htarget, Hneb; reflexivity.
Qed.

Lemma feature_route_follows_flag_witness :
  Loader.getRouteConfig siteConfig !! "/dashboard"
  = Some dashboardRoute /\
  "/dashboard-v2" <> "/dashboard" /\
  enabled (checkFeature (Loader.flags siteConfig) (user "user-1" []) "ab-test") = true /\
  Routing.handleFeatureRouting siteConfig (user "user-1" []) "/dashboard"
  = Routing.Redirect 307 "/dashboard-v2".
Proof.
  assert (Hne : "/dashboard-v2" <> "/dashboard") by discriminate.
  assert (Hen : enabled (checkFeature (Loader.flags siteConfig) (user "user-1" [])
                           "ab-test") = true) by (vm_compute; reflexivity).
  split; [vm_compute; reflexivity|]. split; [exact Hne|]. split; [exact Hen|].
  apply (proj1 (feature_route_follows_flag siteConfig (user "user-1" []) "/dashboard"
                  "ab-test" "/dashboard-v2"
                  dashboardRoute
                  ltac:(vm_compute; reflexivity) ltac:(vm_compute; reflexivity)
                  ltac:(vm_compute; reflexivity) Hne));
    [exact Hen | vm_compute; reflexivity].
Defined.

(** ** utils/configLoader.ts *)

Lemma validateConfig_Some (config validated : Loader.SiteConfig) :
  Loader.validateConfig config = Some validated -> validated = config.
Proof.
  unfold Loader.validateConfig. destruct (_ && _); [|discriminate].
  intros [= <-]. reflexivity.
Qed.

Lemma forallb_map_to_list {A : Type} (f : string * A -> bool) (m : gmap string A) :
  forallb f (map_to_list m) = true <-> forall k x, m !! k = Some x -> f (k, x) = true.
Proof.
  rewrite forallb_forall. split.
  - intros H k x Hkx. apply H, list_elem_of_In, elem_of_map_to_list, Hkx.
  - intros H [k x] Hin. apply H, elem_of_map_to_list, list_elem_of_In, Hin.
Qed.

Lemma rolloutAccepted_range (featureDef : FeatureDefinition) :
  Loader.rolloutAccepted featureDef = true <->
  forall rollout, def_rollout featureDef = Some rollout ->
    is_nan rollout = true \/
    (num_le (num_of_Z 0) rollout = true /\ num_le rollout (num_of_Z 100) = true).
Proof.
  unfold Loader.rolloutAccepted.
  destruct (def_rollout featureDef) as [r|]; [|split; [discriminate | reflexivity]].
  destruct (is_nan r) eqn:Hnan.
  - split; [intros _ r' [= <-]; left; exact Hnan|]. intros _.
    destruct r; try discriminate Hnan. reflexivity.
  - assert (H0 : num_lt r (num_of_Z 0) = negb (num_le (num_of_Z 0) r)).
    { apply (num_gt_negb_le (num_of_Z 0) r); [reflexivity | exact Hnan]. }
    assert (H100 : num_gt r (num_of_Z 100) = negb (num_le r (num_of_Z 100))).
    { apply num_gt_negb_le; [exact Hnan | reflexivity]. }
    rewrite H0, H100. split.
    + intros H r' [= <-]. right.
      destruct (num_le (num_of_Z 0) r), (num_le r (num_of_Z 100));
        simpl in H; try discriminate H. auto.
    + intros H. destruct (H r eq_refl) as [Hn | [-> ->]]; [congruence | reflexivity].
Qed.

(** A route of the sample kind that names the feature constructor, which no
    config defines. *)
Example route_to_inherited_feature_accepted :
  features testConfig !! "constructor" = None /\
  Loader.routeAccepted siteConfig "/lab" (<["feature" := "constructor"]> ∅) = true /\
  Loader.routeAccepted siteConfig "/lab" (<["feature" := "no-such-feature"]> ∅) = false.
Proof. split_and!; vm_compute; reflexivity. Qed.

(** X22.  A config that validateConfig accepts is returned unchanged, and
    in it every rollout that is present is NaN or lies between 0 and 100,
    every route path starts with "/", and every feature that a route names
    is configured or is the name of a member of Object.prototype; a config
    that breaks one of these conditions makes validateConfig throw. *)
Theorem validateConfig_accepted_config (config validated : Loader.SiteConfig) :
  Loader.validateConfig config = Some validated ->
  validated = config /\
  (forall key featureDef rollout,
      features (Loader.flags config) !! key = Some featureDef ->
      def_rollout featureDef = Some rollout ->
      is_nan rollout = true \/
      (num_le (num_of_Z 0) rollout = true /\ num_le rollout (num_of_Z 100) = true)) /\
  (forall rs path routeDef,
      Loader.routes config = Some rs ->
      rs !! path = Some routeDef ->
      String.prefix "/" path = true /\
      (forall feature, Loader.prop routeDef "feature" = Some feature ->
                       is_Some (features (Loader.flags config) !! feature) \/
                       onPrototype feature = true)).
Proof.
  intros Hok. split; [apply (validateConfig_Some _ _ Hok)|].
  unfold Loader.validateConfig in Hok.
  destruct (forallb _ (map_to_list (features (Loader.flags config)))) eqn:E1;
    [|discriminate].
  destruct (match Loader.routes config with Some _ => _ | None => _ end) eqn:E2;
    [|discriminate].
  clear Hok. split.
  - intros key def r Hdef Hr.
    apply (proj1 (rolloutAccepted_range def)); [|exact Hr].
    apply (proj1 (forallb_map_to_list _ _) E1 key def Hdef).
  - intros rs path rd Hrs Hrd. rewrite Hrs in E2.
    pose proof (proj1 (forallb_map_to_list _ _) E2 path rd Hrd) as H. simpl in H.
    unfold Loader.routeAccepted in H. apply andb_true_iff in H as [Hp Hfeat].
    split; [exact Hp|]. intros feature Hfe. rewrite Hfe in Hfeat.
    unfold getFeatureConfig in Hfeat.
    destruct (features (Loader.flags config) !! feature); [left; eauto|].
    destruct (onPrototype feature); [right; reflexivity | discriminate].
Qed.

Lemma validateConfig_accepted_config_witness :
  Loader.validateConfig siteConfig = Some siteConfig /\
  Loader.validateConfig badConfig = None /\
  (forall rs path routeDef,
      Loader.routes siteConfig = Some rs ->
      rs !! path = Some routeDef ->
      String.prefix "/" path = true /\
      (forall feature, Loader.prop routeDef "feature" = Some feature ->
                       is_Some (features (Loader.flags siteConfig) !! feature) \/
                       onPrototype feature = true)).
Proof.
  assert (H : Loader.validateConfig siteConfig = Some siteConfig)
    by (vm_compute; reflexivity).
  split; [exact H|]. split; [vm_compute; reflexivity|].
  exact (proj2 (proj2 (validateConfig_accepted_config siteConfig siteConfig H))).
Defined.

Lemma loadConfig_cached (defaultConfig : Loader.SiteConfig) (st : Loader.LoaderState)
    (now : Z) (config : Loader.SiteConfig) :
  (Loader.loadConfig defaultConfig st now).2 = Some config ->
  Loader.cachedConfig (Loader.loadConfig defaultConfig st now).1 = Some config.
Proof.
  unfold Loader.loadConfig.
  destruct (Loader.cachedConfig st) as [cached|] eqn:Hc.
  - destruct (Loader.fresh st now); simpl; [congruence|].
    destruct (Loader.fetchConfig defaultConfig st now); simpl; congruence.
  - destruct (Loader.fetchConfig defaultConfig st now); simpl; [congruence|].
    destruct (Loader.validateConfig defaultConfig); simpl; [congruence|discriminate].
Qed.

Lemma fetchConfig_validated (defaultConfig : Loader.SiteConfig)
    (st : Loader.LoaderState) (now : Z) (config : Loader.SiteConfig) :
  Loader.fetchConfig defaultConfig st now = Some config ->
  Loader.validateConfig config = Some config.
Proof.
  unfold Loader.fetchConfig.
  destruct (Loader.configProvider st) as [p|].
  - destruct (p now) as [c|]; [|discriminate]. intros H.
    rewrite <- (validateConfig_Some _ _ H) in H at 1. exact H.
  - intros H. rewrite <- (validateConfig_Some _ _ H) in H at 1. exact H.
Qed.

Lemma loadConfig_invariant (defaultConfig : Loader.SiteConfig)
    (st : Loader.LoaderState) (now : Z) :
  (forall c, Loader.cachedConfig st = Some c -> Loader.validateConfig c = Some c) ->
  forall c, Loader.cachedConfig (Loader.loadConfig defaultConfig st now).1 = Some c ->
            Loader.validateConfig c = Some c.
Proof.
  intros Hinv c. unfold Loader.loadConfig.
  destruct (Loader.cachedConfig st) as [cached|] eqn:Hc.
  - destruct (Loader.fresh st now); simpl; [rewrite Hc; apply Hinv|].
    destruct (Loader.fetchConfig defaultConfig st now) as [f|] eqn:Hf; simpl.
    + intros [= <-]. eapply fetchConfig_validated, Hf.
    + rewrite Hc. apply Hinv.
  - destruct (Loader.fetchConfig defaultConfig st now) as [f|] eqn:Hf; simpl.
    + intros [= <-]. eapply fetchConfig_validated, Hf.
    + destruct (Loader.validateConfig defaultConfig) as [d|] eqn:Hd; simpl.
      * intros [= <-]. rewrite <- (validateConfig_Some _ _ Hd) in Hd at 1. exact Hd.
      * rewrite Hc. discriminate.
Qed.

Lemma loadConfig_ttl (defaultConfig : Loader.SiteConfig) (st : Loader.LoaderState)
    (now : Z) :
  Loader.cacheTTL (Loader.loadConfig defaultConfig st now).1 = Loader.cacheTTL st.
Proof.
  unfold Loader.loadConfig.
  destruct (Loader.cachedConfig st).
  - destruct (Loader.fresh st now); [reflexivity|].
    destruct (Loader.fetchConfig defaultConfig st now); reflexivity.
  - destruct (Loader.fetchConfig defaultConfig st now); [reflexivity|].
    destruct (Loader.validateConfig defaultConfig); reflexivity.
Qed.

(** X23.  In every state the loader can reach, the cached config, if there
    is one, is a config that validateConfig accepts, and the TTL is neither
    zero nor NaN; hence every config that loadConfig returns has passed
    validateConfig, also when it is served from the cache or as the fallback
    after a failure. *)
Theorem loader_serves_validated_configs (defaultConfig : Loader.SiteConfig)
    (st : Loader.LoaderState) :
  reachable defaultConfig st ->
  (forall cached, Loader.cachedConfig st = Some cached ->
                  Loader.validateConfig cached = Some cached) /\
  Loader.num_truthy (Loader.cacheTTL st) = true /\
  (forall now config,
      (Loader.loadConfig defaultConfig st now).2 = Some config ->
      Loader.validateConfig config = Some config).
Proof.
  intros Hreach.
  assert (Hinv : (forall cached, Loader.cachedConfig st = Some cached ->
                                 Loader.validateConfig cached = Some cached) /\
                 Loader.num_truthy (Loader.cacheTTL st) = true).
  { induction Hreach as [|provider ttl|st now _ [IH1 IH2]|st _ [IH1 IH2]].
    - split; [discriminate | reflexivity].
    - split; [discriminate|]. simpl.
      destruct ttl as [t|]; [|reflexivity].
      destruct (Loader.num_truthy t) eqn:Ht; [exact Ht | reflexivity].
    - split; [apply loadConfig_invariant, IH1 | rewrite loadConfig_ttl; exact IH2].
    - split; [discriminate | exact IH2]. }
  destruct Hinv as [Hcache Httl]. split; [exact Hcache|]. split; [exact Httl|].
  intros now config Hload.
  apply (loadConfig_invariant defaultConfig st now Hcache).
  apply loadConfig_cached, Hload.
Qed.

Lemma loader_serves_validated_configs_witness :
  reachable siteConfig
    (Loader.loadConfig siteConfig (Loader.initConfigLoader (Some siteProvider) None) 1000).1 /\
  (Loader.loadConfig siteConfig
     (Loader.loadConfig siteConfig (Loader.initConfigLoader (Some siteProvider) None) 1000).1
     2000).2 = Some siteConfig /\
  Loader.validateConfig siteConfig = Some siteConfig.
Proof.
  assert (Hreach : reachable siteConfig
            (Loader.loadConfig siteConfig
               (Loader.initConfigLoader (Some siteProvider) None) 1000).1)
    by (apply reach_load, reach_init).
  assert (Hload : (Loader.loadConfig siteConfig
            (Loader.loadConfig siteConfig
               (Loader.initConfigLoader (Some siteProvider) None) 1000).1 2000).2
          = Some siteConfig) by (vm_compute; reflexivity).
  split; [exact Hreach|]. split; [exact Hload|].
  exact (proj2 (proj2 (loader_serves_validated_configs siteConfig _ Hreach))
           2000 siteConfig Hload).
Defined.

(** X24.  Caching: once loadConfig has returned a config, every call made
    while the cache is fresh returns the same config and leaves the state as
    it is, without regard to the provider. *)
Theorem loadConfig_cache_hit (defaultConfig : Loader.SiteConfig)
    (st st1 : Loader.LoaderState) (t0 t1 : Z) (config : Loader.SiteConfig) :
  Loader.loadConfig defaultConfig st t0 = (st1, Some config) ->
  Loader.fresh st1 t1 = true ->
  Loader.loadConfig defaultConfig st1 t1 = (st1, Some config).
Proof.
  intros Hload Hfresh.
  pose proof (loadConfig_cached defaultConfig st t0 config) as Hc.
  rewrite Hload in Hc. simpl in Hc. specialize (Hc eq_refl).
  unfold Loader.loadConfig. rewrite Hc, Hfresh. reflexivity.
Qed.

Lemma loadConfig_cache_hit_witness :
  Loader.loadConfig siteConfig (Loader.initConfigLoader (Some siteProvider) None) 1000
  = (Loader.store (Loader.initConfigLoader (Some siteProvider) None) siteConfig 1000,
     Some siteConfig) /\
  Loader.fresh
    (Loader.store (Loader.initConfigLoader (Some siteProvider) None) siteConfig 1000)
    300999 = true /\
  Loader.loadConfig siteConfig
    (Loader.store (Loader.initConfigLoader (Some siteProvider) None) siteConfig 1000)
    300999
  = (Loader.store (Loader.initConfigLoader (Some siteProvider) None) siteConfig 1000,
     Some siteConfig).
Proof.
  assert (H0 : Loader.loadConfig siteConfig
                 (Loader.initConfigLoader (Some siteProvider) None) 1000
               = (Loader.store (Loader.initConfigLoader (Some siteProvider) None)
                    siteConfig 1000, Some siteConfig)).
  { unfold Loader.loadConfig, Loader.fetchConfig. simpl.
    assert (Hv : Loader.validateConfig siteConfig = Some siteConfig)
      by (vm_compute; reflexivity).
    unfold siteProvider at 1. rewrite Hv. reflexivity. }
  assert (H1 : Loader.fresh
                 (Loader.store (Loader.initConfigLoader (Some siteProvider) None)
                    siteConfig 1000) 300999 = true) by (vm_compute; reflexivity).
  split; [exact H0|]. split; [exact H1|].
  exact (loadConfig_cache_hit siteConfig _ _ 1000 300999 siteConfig H0 H1).
Defined.

(** X25.  When the provider throws or returns a config that validateConfig
    rejects, loadConfig with a cached config returns the cached config and
    leaves the state untouched, so the next call asks the provider again;
    without a cached config it falls back to the default config, and throws
    when validateConfig rejects that one too. *)
Theorem loadConfig_provider_failure (defaultConfig : Loader.SiteConfig)
    (st : Loader.LoaderState) (now : Z) (provider : Loader.ConfigProvider) :
  Loader.configProvider st = Some provider ->
  (provider now = None \/
   exists config, provider now = Some config /\ Loader.validateConfig config = None) ->
  (forall cached, Loader.cachedConfig st = Some cached ->
     Loader.loadConfig defaultConfig st now = (st, Some cached)) /\
  (Loader.cachedConfig st = None ->
   Loader.loadConfig defaultConfig st now
   = match Loader.validateConfig defaultConfig with
     | Some config => (Loader.store st config now, Some config)
     | None => (st, None)
     end).
Proof.
  intros Hp Hfail.
  assert (Hfetch : Loader.fetchConfig defaultConfig st now = None).
  { unfold Loader.fetchConfig. rewrite Hp.
    destruct Hfail as [-> | (config & -> & Hv)]; [reflexivity | exact Hv]. }
  unfold Loader.loadConfig. rewrite Hfetch. split.
  - intros cached ->. destruct (Loader.fresh st now); reflexivity.
  - intros ->. reflexivity.
Qed.

Lemma loadConfig_provider_failure_witness :
  Loader.configProvider
    (Loader.store (Loader.initConfigLoader (Some failingProvider) None) siteConfig 0)
  = Some failingProvider /\
  failingProvider 900000 = None /\
  Loader.loadConfig badConfig
    (Loader.store (Loader.initConfigLoader (Some failingProvider) None) siteConfig 0)
    900000
  = (Loader.store (Loader.initConfigLoader (Some failingProvider) None) siteConfig 0,
     Some siteConfig).
Proof.
  split; [reflexivity|]. split; [reflexivity|].
  apply (proj1 (loadConfig_provider_failure badConfig
                  (Loader.store (Loader.initConfigLoader (Some failingProvider) None)
                     siteConfig 0)
                  900000 failingProvider eq_refl (or_introl eq_refl))).
  reflexivity.
Defined.

(** X26.  invalidateCache forces a reload: the next loadConfig calls the
    provider, whatever the age of the old cache, and when the provider
    answers with a config that validateConfig accepts, that config is
    returned and cached with the time of the call. *)
Theorem invalidateCache_forces_reload (defaultConfig : Loader.SiteConfig)
    (st : Loader.LoaderState) (now : Z) (provider : Loader.ConfigProvider)
    (config : Loader.SiteConfig) :
  Loader.configProvider st = Some provider ->
  provider now = Some config ->
  Loader.validateConfig config = Some config ->
  Loader.loadConfig defaultConfig (Loader.invalidateCache st) now
  = ({| Loader.cachedConfig := Some config; Loader.configLoadedAt := now;
        Loader.configProvider := Some provider;
        Loader.cacheTTL := Loader.cacheTTL st |}, Some config).
Proof.
  intros Hp Hnow Hv.
  unfold Loader.loadConfig, Loader.fetchConfig, Loader.invalidateCache, Loader.store.
  simpl. rewrite Hp, Hnow, Hv. reflexivity.
Qed.

Lemma invalidateCache_forces_reload_witness :
  siteProvider 5 = Some siteConfig /\
  Loader.validateConfig siteConfig = Some siteConfig /\
  (Loader.loadConfig badConfig
     (Loader.invalidateCache
        (Loader.store (Loader.initConfigLoader (Some siteProvider) None) badConfig 4))
     5).2 = Some siteConfig.
Proof.
  assert (Hv : Loader.validateConfig siteConfig = Some siteConfig)
    by (vm_compute; reflexivity).
  split; [reflexivity|]. split; [exact Hv|].
  rewrite (invalidateCache_forces_reload badConfig
             (Loader.store (Loader.initConfigLoader (Some siteProvider) None) badConfig 4)
             5 siteProvider siteConfig eq_refl eq_refl Hv).
  reflexivity.
Defined.
